(** * pycamt: the CAMT.053 parser of [pycamt/parser.py]

    A shallow embedding of [Camt053Parser] and of the part of lxml's
    ElementPath it relies on, followed by the properties of the three public
    operations [get_group_header], [get_statement_info] and
    [get_transactions]. *)

From Stdlib Require Import ZArith String Ascii List Lia DecimalString.
From stdpp Require Import base option list strings gmap fin_maps.

Set Warnings "-register-all".

Open Scope string_scope.
Open Scope list_scope.

(** ** Python values *)

(** A Python dict with [str] keys whose values are [str] or [None]:
    [d !! k = None] means that [k] is not a key of [d], while
    [d !! k = Some None] means that [k] is a key bound to [None]. *)
Abbreviation dict := (gmap string (option string)).

(** [{**a, **b}]: the keys of [b] win. *)
Definition dict_merge (a b : dict) : dict := b ∪ a.

(** Truth value of an [Optional[str]]: [None] and the empty string are false. *)
Definition truthy (o : option string) : bool :=
  match o with
  | None => false
  | Some "" => false
  | Some _ => true
  end.

(** The exceptions the parser can end with. *)
Inductive exception : Type :=
  | Camt053ParseError (msg : string)
  | AttributeError (msg : string).

Inductive result (A : Type) : Type :=
  | Return (a : A)
  | Raise (e : exception).
Arguments Return {A} a.
Arguments Raise {A} e.

#[global] Instance result_ret : MRet result := @Return.
#[global] Instance result_bind : MBind result := λ A B f m,
  match m with
  | Return a => f a
  | Raise e => Raise e
  end.

(** A [for] loop whose body may raise, threading the loop state. *)
Fixpoint for_each {A S : Type} (l : list A) (body : S → A → result S) (s : S)
  : result S :=
  match l with
  | [] => Return s
  | x :: l' => s' ← body s x; for_each l' body s'
  end.

(** The results of [f] on the elements of a list, in order, unless one of
    them raises: then the first exception. *)
Fixpoint traverse {A B : Type} (f : A → result B) (l : list A)
  : result (list B) :=
  match l with
  | [] => Return []
  | x :: l' => y ← f x; ys ← traverse f l'; mret (y :: ys)
  end.

(** ** Elements and ElementPath *)

(** An element of the parsed tree: its tag in Clark notation
    ([{uri}local], or [local] without a namespace), the text before its first
    child ([None] when there is none), its attributes and its children. *)
Inductive Element : Type :=
  mkElement (tag : string) (text : option string)
            (attrib : gmap string string) (children : list Element).

Definition tag (e : Element) : string :=
  match e with mkElement t _ _ _ => t end.
Definition text (e : Element) : option string :=
  match e with mkElement _ t _ _ => t end.
Definition attrib (e : Element) : gmap string string :=
  match e with mkElement _ _ a _ => a end.
Definition children (e : Element) : list Element :=
  match e with mkElement _ _ _ c => c end.

(** [elem.iter()]: the element and all its descendants, in document order. *)
Fixpoint iter (e : Element) : list Element :=
  match e with
  | mkElement _ _ _ cs => e :: concat (map iter cs)
  end.

(** One step of a path: [//name] or [//*]. *)
Inductive selector : Type :=
  | Tag (name : string)
  | Star.

(** The paths of the parser all have the shape [.//a//b//c]; they are read
    into the list of their descendant steps. *)
Fixpoint split_steps (acc s : string) : list string :=
  match s with
  | "" => [acc]
  | String "/" (String "/" r) => acc :: split_steps "" r
  | String c r => split_steps (acc +:+ String c "") r
  end.

Definition xpath (s : string) : list selector :=
  match split_steps "" s with
  | "." :: steps => map (λ n, if String.eqb n "*" then Star else Tag n) steps
  | _ => []
  end.

(** An unprefixed name is looked up in the default namespace of the
    namespace map, when there is one. *)
Definition qualify (default_ns : option string) (name : string) : string :=
  match default_ns with
  | Some uri => "{" +:+ uri +:+ "}" +:+ name
  | None => name
  end.

Definition selects (default_ns : option string) (sel : selector) (e : Element)
  : bool :=
  match sel with
  | Star => true
  | Tag name => String.eqb (tag e) (qualify default_ns name)
  end.

(** [//sel] applied to the current result: for each element, its proper
    descendants that the selector accepts. *)
Definition prepare_descendant (default_ns : option string) (sel : selector)
    (res : list Element) : list Element :=
  concat (map (λ elem, filter (λ e, selects default_ns sel e = true)
                              (tail (iter elem))) res).

Definition findall (default_ns : option string) (path : string) (e : Element)
  : list Element :=
  fold_left (λ res sel, prepare_descendant default_ns sel res) (xpath path) [e].

Definition find (default_ns : option string) (path : string) (e : Element)
  : option Element :=
  head (findall default_ns path e).

(** [x.text] where [x] is the result of a [find]: an [AttributeError] when
    the [find] returned [None]. *)
Definition no_text : exception :=
  AttributeError "'NoneType' object has no attribute 'text'".

Definition get_text (x : option Element) : result (option string) :=
  match x with
  | Some e => Return (text e)
  | None => Raise no_text
  end.

(** [x.text if x is not None else None] *)
Definition text_or_None (x : option Element) : option string :=
  match x with
  | Some e => text e
  | None => None
  end.

(** [x.attrib] where [x] is the result of a [find]. *)
Definition no_attrib : exception :=
  AttributeError "'NoneType' object has no attribute 'attrib'".

Definition get_attrib (x : option Element) : result (gmap string string) :=
  match x with
  | Some e => Return (attrib e)
  | None => Raise no_attrib
  end.

(** A dict display [{k1: v1, ..., kn: vn}]: the items are stored from left to
    right. *)
Definition dict_of (items : list (string * option string)) : dict :=
  fold_left (λ d kv, <[kv.1 := kv.2]> d) items ∅.

(** The value of the last item with key [k], which is what the dict of the
    items holds at [k]. *)
Definition last_item (k : string) (items : list (string * option string))
  : option (option string) :=
  fold_left (λ found kv, if String.eqb kv.1 k then Some kv.2 else found)
            items None.

(** ** [str.strip] *)

(** The characters [str.strip()] removes. A character is a code point below
    256; the white space among these is U+0009..U+000D, U+001C..U+0020,
    U+0085 and U+00A0. *)
Definition isspace (c : ascii) : bool :=
  let n := nat_of_ascii c in
  (Nat.leb 9 n && Nat.leb n 13) || (Nat.leb 28 n && Nat.leb n 32)
  || Nat.eqb n 133 || Nat.eqb n 160.

Fixpoint lstrip (s : string) : string :=
  match s with
  | String c r => if isspace c then lstrip r else s
  | "" => ""
  end.

Fixpoint rstrip (s : string) : string :=
  match s with
  | String c r =>
      match rstrip r with
      | "" => if isspace c then "" else String c ""
      | r' => String c r'
      end
  | "" => ""
  end.

Definition strip (s : string) : string := rstrip (lstrip s).

(** ** [float] and [str] on floats *)

(** Python's [float] is IEEE 754 binary64. [float(s)] rounds the decimal
    numeral [s] to the nearest double, ties to even, and [str(x)] prints the
    shortest decimal numeral that [float] reads back as [x]. Both are
    modelled with exact integer arithmetic. *)
Module PyFloat.
Local Open Scope Z_scope.

(** A double: not-a-number, an infinity, or [(-1)^neg * m * 2^e] with
    [0 <= m < 2^53] and [-1074 <= e <= 971], where [2^52 <= m] unless
    [e = -1074]. *)
Inductive float : Type :=
  | NaN
  | Inf (neg : bool)
  | Fin (neg : bool) (m e : Z).

(** unary minus *)
Definition neg (x : float) : float :=
  match x with
  | NaN => NaN
  | Inf s => Inf (negb s)
  | Fin s m e => Fin (negb s) m e
  end.

(** [floor (n / (d * 2^e))] with its remainder and divisor. *)
Definition scaled_div (n d e : Z) : Z * Z * Z :=
  let n' := if 0 <=? e then n else n * 2 ^ (- e) in
  let d' := if 0 <=? e then d * 2 ^ e else d in
  (n' / d', n' mod d', d').

(** The double nearest to [n / d] for [0 <= n] and [0 < d], ties to even;
    what lies at or beyond [2^1024 - 2^970] becomes an infinity. *)
Definition round_nearest_even (s : bool) (n d : Z) : float :=
  if n =? 0 then Fin s 0 (-1074) else
  let e1 := Z.log2 n - Z.log2 d - 52 in
  let e2 := if (scaled_div n d e1).1.1 <? 2 ^ 52 then e1 - 1 else e1 in
  let e := Z.max e2 (-1074) in
  let '(q, r, den) := scaled_div n d e in
  let q := if (den <? 2 * r) || ((den =? 2 * r) && Z.odd q)
           then q + 1 else q in
  let '(m, e) := if q =? 2 ^ 53 then (2 ^ 52, e + 1) else (q, e) in
  if 971 <? e then Inf s else Fin s m e.

(** *** Reading a numeral *)

Definition digit_of (c : ascii) : option Z :=
  let n := Z.of_nat (nat_of_ascii c) in
  if (48 <=? n) && (n <=? 57) then Some (n - 48) else None.

(** [digit (["_"] digit)*], continued: the value and the number of digits
    read so far, and what is left of the text. *)
Fixpoint digitpart_rest (s : string) (v k : Z) : Z * Z * string :=
  match s with
  | String c r =>
      match digit_of c with
      | Some d => digitpart_rest r (10 * v + d) (k + 1)
      | None =>
          match c, r with
          | "_"%char, String c' r' =>
              match digit_of c' with
              | Some d => digitpart_rest r' (10 * v + d) (k + 1)
              | None => (v, k, s)
              end
          | _, _ => (v, k, s)
          end
      end
  | EmptyString => (v, k, s)
  end.

(** A digit part that may be empty, continuing the digits [v], [k]. *)
Definition digitpart_opt (s : string) (v k : Z) : Z * Z * string :=
  match s with
  | String c r =>
      match digit_of c with
      | Some d => digitpart_rest r (10 * v + d) (k + 1)
      | None => (v, k, s)
      end
  | EmptyString => (v, k, s)
  end.

Definition read_sign (s : string) : bool * string :=
  match s with
  | String "-" r => (true, r)
  | String "+" r => (false, r)
  | _ => (false, s)
  end.

(** [("e" | "E") [sign] digitpart], or nothing. *)
Definition read_exponent (s : string) : option (Z * string) :=
  match s with
  | String c r =>
      if Ascii.eqb c "e" || Ascii.eqb c "E" then
        let '(sg, r) := read_sign r in
        let '(v, k, r) := digitpart_opt r 0 0 in
        if k =? 0 then None else Some (if sg then - v else v, r)
      else Some (0, s)
  | EmptyString => Some (0, s)
  end.

(** [[digitpart] "." digitpart | digitpart ["."]] and an optional exponent:
    the double of the numeral, when the whole text is one. *)
Definition read_number (sg : bool) (s : string) : option float :=
  let '(v, ki, r) := digitpart_opt s 0 0 in
  let '(v, k, r) :=
    match r with
    | String "." r' => digitpart_opt r' v ki
    | _ => (v, ki, r)
    end in
  if k =? 0 then None else
  match read_exponent r with
  | Some (ex, EmptyString) =>
      let ex := ex - (k - ki) in
      Some (if 0 <=? ex then round_nearest_even sg (v * 10 ^ ex) 1
            else round_nearest_even sg v (10 ^ (- ex)))
  | _ => None
  end.

Definition lower (c : ascii) : ascii :=
  let n := nat_of_ascii c in
  if Nat.leb 65 n && Nat.leb n 90 then ascii_of_nat (n + 32) else c.

Fixpoint lowercase (s : string) : string :=
  match s with
  | String c r => String (lower c) (lowercase r)
  | EmptyString => EmptyString
  end.

(** [float(s)] for a [str]: [None] stands for the [ValueError]. *)
Definition float_of_string (s : string) : option float :=
  let '(sg, r) := read_sign (strip s) in
  let w := lowercase r in
  if String.eqb w "inf" || String.eqb w "infinity" then Some (Inf sg)
  else if String.eqb w "nan" then Some NaN
  else read_number sg r.

(** *** Printing *)

(** The [p] with [10^p <= n / d < 10^(p+1)], for [0 < n] and [0 < d]. *)
Definition le_pow10 (p n d : Z) : bool :=
  if 0 <=? p then 10 ^ p * d <=? n else d <=? n * 10 ^ (- p).

Definition floor_log10 (n d : Z) : Z :=
  let p := (Z.log2 n - Z.log2 d) * 30103 / 100000 in
  if le_pow10 (p + 1) n d then p + 1
  else if le_pow10 p n d then p
  else p - 1.

(** [floor (n / (d * 10^j))] with its remainder and divisor. *)
Definition scaled_div10 (n d j : Z) : Z * Z * Z :=
  let n' := if 0 <=? j then n else n * 10 ^ (- j) in
  let d' := if 0 <=? j then d * 10 ^ j else d in
  (n' / d', n' mod d', d').

(** Does [float] read the numeral [D * 10^j] back as [m * 2^e]? *)
Definition reads_back (m e D j : Z) : bool :=
  match (if 0 <=? j then round_nearest_even false (D * 10 ^ j) 1
         else round_nearest_even false D (10 ^ (- j))) with
  | Fin _ m' e' => (m' =? m) && (e' =? e)
  | _ => false
  end.

(** The numeral with [k] significant digits that reads back as [m * 2^e]
    and is nearest to it (the even one on a tie), if there is one:
    [(D, j)] stands for [D * 10^j]. *)
Definition numeral_of_length (m e n d p k : Z) : option (Z * Z) :=
  let j := p - k + 1 in
  let '(lo, r, den) := scaled_div10 n d j in
  let hi := lo + 1 in
  if r =? 0 then Some (lo, j) else
  match reads_back m e lo j, reads_back m e hi j with
  | true, false => Some (lo, j)
  | false, true => Some (hi, j)
  | true, true =>
      if 2 * r <? den then Some (lo, j)
      else if den <? 2 * r then Some (hi, j)
      else Some (if Z.even lo then lo else hi, j)
  | false, false => None
  end.

Fixpoint shortest_from (fuel : nat) (m e n d p k : Z) : Z * Z :=
  match fuel with
  | O => ((scaled_div10 n d (p - k + 1)).1.1, p - k + 1)
  | S fuel =>
      match numeral_of_length m e n d p k with
      | Some r => r
      | None => shortest_from fuel m e n d p (k + 1)
      end
  end.

(** The shortest numeral for the positive double [m * 2^e]; seventeen
    digits always suffice. *)
Definition shortest (m e : Z) : Z * Z :=
  let n := if 0 <=? e then m * 2 ^ e else m in
  let d := if 0 <=? e then 1 else 2 ^ (- e) in
  shortest_from 17 m e n d (floor_log10 n d) 1.

Fixpoint rstrip_zeros (s : string) : string :=
  match s with
  | String c r =>
      match rstrip_zeros r with
      | EmptyString => if Ascii.eqb c "0" then EmptyString else String c EmptyString
      | r' => String c r'
      end
  | EmptyString => EmptyString
  end.

Definition decimal (n : Z) : string :=
  DecimalString.NilZero.string_of_uint (N.to_uint (Z.to_N n)).

Fixpoint zeros (k : nat) : string :=
  match k with
  | O => EmptyString
  | S k => String "0" (zeros k)
  end.

(** The digits [ds] with the decimal point after the first [decpt] of them:
    exponent notation when [decpt <= -4] or [16 < decpt], and [.0] after an
    integer otherwise. *)
Definition format_repr (ds : string) (decpt : Z) : string :=
  let nd := Z.of_nat (String.length ds) in
  if (decpt <=? -4) || (16 <? decpt) then
    let ex := decpt - 1 in
    let mant :=
      match ds with
      | String c EmptyString => ds
      | String c r => String c (String "." r)
      | EmptyString => ds
      end in
    let exd := decimal (Z.abs ex) in
    let exd := if Z.abs ex <? 10 then String "0" exd else exd in
    (mant +:+ "e" +:+ (if (ex <? 0)%Z then "-" else "+") +:+ exd)%string
  else if decpt <=? 0 then
    ("0." +:+ zeros (Z.to_nat (- decpt)%Z) +:+ ds)%string
  else if nd <=? decpt then
    (ds +:+ zeros (Z.to_nat (decpt - nd)%Z) +:+ ".0")%string
  else
    (String.substring 0 (Z.to_nat decpt) ds +:+ "." +:+
     String.substring (Z.to_nat decpt) (Z.to_nat (nd - decpt)%Z) ds)%string.

(** [str(x)], which is [repr(x)] *)
Definition str (x : float) : string :=
  match x with
  | NaN => "nan"
  | Inf s => if s then "-inf" else "inf"
  | Fin s m e =>
      let body :=
        if m =? 0 then "0.0"%string else
        let '(D, j) := shortest m e in
        let all := decimal D in
        format_repr (rstrip_zeros all) (Z.of_nat (String.length all) + j) in
      if s then ("-" +:+ body)%string else body
  end.

End PyFloat.

(** ** The parser *)

Record Camt053Parser : Type := {
  tree : Element;
  (** the default namespace of [tree.nsmap], the only entry unprefixed
      paths use *)
  namespaces : option string;
}.

Section Parser.
Variable self : Camt053Parser.

Let ns := namespaces self.

Definition _find_statements_or_reports : result (list Element) :=
  match findall ns ".//Stmt" (tree self) with
  | (_ :: _) as stmts => Return stmts
  | [] =>
      match findall ns ".//Rpt" (tree self) with
      | (_ :: _) as stmts => Return stmts
      | [] => Raise (Camt053ParseError "Neither 'Stmt' nor 'Rpt' element found")
      end
  end.

Definition _extract_group_header (grp_hdr : Element) : result dict :=
  msg_id ← get_text (find ns ".//MsgId" grp_hdr);
  cre_dt_tm ← get_text (find ns ".//CreDtTm" grp_hdr);
  mret (dict_of [("MessageID", msg_id); ("CreationDateTime", cre_dt_tm)]).

Definition get_group_header : result dict :=
  match find ns ".//GrpHdr" (tree self) with
  | Some grp_hdr => _extract_group_header grp_hdr
  | None => mret ∅
  end.

Definition _parse_status (entry : option Element) : option string :=
  match entry with
  | Some entry =>
      match find ns ".//Cd" entry with
      | Some child_element => text child_element
      | None => text entry
      end
  | None => None
  end.

Definition _extract_common_entry_data (entry statement : Element)
  : result dict :=
  transaction_id ← get_text (find ns ".//AcctSvcrRef" entry);
  let account_iban := text_or_None (find ns ".//Acct//Id//IBAN" statement) in
  amount ← get_text (find ns ".//Amt" entry);
  amt_attrib ← get_attrib (find ns ".//Amt" entry);
  let currency := amt_attrib !! "Ccy" in
  credit_debit_indicator ← get_text (find ns ".//CdtDbtInd" entry);
  let reversal_indicator := text_or_None (find ns ".//RvslInd" entry) in
  let status := _parse_status (find ns ".//Sts" entry) in
  booking_date ← get_text (find ns ".//BookgDt//*" entry);
  value_date ← get_text (find ns ".//ValDt//*" entry);
  mret (dict_of [
    ("TransactionID", transaction_id);
    ("AccountIBAN", account_iban);
    ("Amount", amount);
    ("Currency", currency);
    ("CreditDebitIndicator", credit_debit_indicator);
    ("ReversalIndicator", reversal_indicator);
    ("Status", status);
    ("BookingDate", booking_date);
    ("ValueDate", value_date);
    ("BankTransactionCode",
      text_or_None (find ns ".//BkTxCd//Domn//Cd" entry));
    ("TransactionFamilyCode",
      text_or_None (find ns ".//BkTxCd//Domn//Fmly//Cd" entry));
    ("TransactionSubFamilyCode",
      text_or_None (find ns ".//BkTxCd//Domn//Fmly//SubFmlyCd" entry));
    ("AdditionalEntryInformation",
      text_or_None (find ns ".//AddtlNtryInf" entry))
  ]).

(** [" ".join(rinfo.text.strip() for rinfo in lines if rinfo.text)] *)
Definition join_remittance (lines : list Element) : string :=
  String.concat " "
    (omap (λ rinfo, if truthy (text rinfo) then strip <$> text rinfo else None)
          lines).

Definition _extract_transaction_details (tx_detail : Element) : dict :=
  let data := dict_of [
    ("EndToEndId", text_or_None (find ns ".//Refs//EndToEndId" tx_detail));
    ("MandateId", text_or_None (find ns ".//Refs//MndtId" tx_detail));
    ("Amount", text_or_None (find ns ".//Amt" tx_detail));
    ("CreditorName",
      text_or_None (find ns ".//RltdPties//Cdtr//Nm" tx_detail));
    ("CreditorIBAN",
      text_or_None (find ns ".//RltdPties//CdtrAcct//Id//IBAN" tx_detail));
    ("DebtorName",
      text_or_None (find ns ".//RltdPties//Dbtr//Nm" tx_detail));
    ("DebtorIBAN",
      text_or_None (find ns ".//RltdPties//DbtrAcct//Id//IBAN" tx_detail));
    ("PurposeCode", text_or_None (find ns ".//Purp//Cd" tx_detail));
    ("RemittanceInformation",
      text_or_None (find ns ".//RmtInf//Ustrd" tx_detail));
    ("RemittanceInformationFull",
      match findall ns ".//RmtInf//Ustrd" tx_detail with
      | (_ :: _) as lines => Some (join_remittance lines)
      | [] => None
      end)
  ] in
  let structured_remittance_elem := find ns ".//RmtInf//Strd" tx_detail in
  let data :=
    match structured_remittance_elem with
    | Some structured_remittance_elem =>
        let ref_elem :=
          find ns ".//CdtrRefInf//Ref" structured_remittance_elem in
        let additional_ref_elem :=
          find ns ".//AddtlRmtInf" structured_remittance_elem in
        <["AdditionalRemittanceInformation" :=
            text_or_None additional_ref_elem]>
          (<["RemittanceInformation" := text_or_None ref_elem]> data)
    | None => data
    end in
  filter (λ kv : string * option string, kv.2 ≠ None) data.

Definition _extract_transaction (entry statement : Element)
  : result (list dict) :=
  common_data ← _extract_common_entry_data entry statement;
  let entry_details := findall ns ".//NtryDtls" entry in
  let transactions : list dict := [] in
  mret
    match entry_details with
    | [] => transactions ++ [common_data]
    | _ =>
        fold_left (λ transactions ntry_detail,
          let tx_details := findall ns ".//TxDtls" ntry_detail in
          match tx_details with
          | [] => transactions ++ [common_data]
          | [tx_detail] =>
              transactions ++
                [dict_merge common_data
                            (_extract_transaction_details tx_detail)]
          | _ =>
              fold_left (λ transactions tx_detail,
                transactions ++
                  [dict_merge common_data
                              (_extract_transaction_details tx_detail)])
                tx_details transactions
          end) entry_details transactions
    end.

Definition get_transactions : result (list dict) :=
  let transactions : list dict := [] in
  statements ← _find_statements_or_reports;
  for_each statements (λ transactions statement,
    let entries := findall ns ".//Ntry" statement in
    for_each entries (λ transactions entry,
      extracted ← _extract_transaction entry statement;
      mret (transactions ++ extracted)) transactions) transactions.

(** [with contextlib.suppress(ValueError): amount_text = str(-float(amount_text))] *)
Definition negate_amount (amount_text : string) : string :=
  match PyFloat.float_of_string amount_text with
  | Some x => PyFloat.str (PyFloat.neg x)
  | None => amount_text
  end.

(** The body of the loop over the balance elements of a statement. *)
Definition read_balance (result : dict) (balance_elem : Element) : dict :=
  let balance_type :=
    text_or_None (find ns ".//Tp//CdOrPrtry//Cd" balance_elem) in
  let amount_text := text_or_None (find ns ".//Amt" balance_elem) in
  let cdt_dbt_indicator :=
    text_or_None (find ns ".//CdtDbtInd" balance_elem) in
  let amount_text :=
    if truthy amount_text && bool_decide (cdt_dbt_indicator = Some "DBIT")
    then negate_amount <$> amount_text
    else amount_text in
  let date_text := text_or_None (find ns ".//Dt//Dt" balance_elem) in
  let date_text :=
    match find ns ".//Dt//DtTm" balance_elem with
    | Some date_time_elem => text date_time_elem
    | None => date_text
    end in
  if bool_decide (balance_type = Some "OPBD") then
    <["OpeningBalanceDate" := date_text]>
      (<["OpeningBalance" := amount_text]> result)
  else if bool_decide (balance_type = Some "CLBD") then
    <["ClosingBalanceDate" := date_text]>
      (<["ClosingBalance" := amount_text]> result)
  else result.

(** The summary of one statement or report. *)
Definition statement_summary (stmt : Element) : dict :=
  let iban_text := text_or_None (find ns ".//Acct//Id//IBAN" stmt) in
  let currency_text := text_or_None (find ns ".//Acct//Ccy" stmt) in
  let result := dict_of [
    ("IBAN", iban_text);
    ("Currency", currency_text);
    ("OpeningBalance", None);
    ("ClosingBalance", None);
    ("OpeningBalanceDate", None);
    ("ClosingBalanceDate", None)
  ] in
  let balance_elements := findall ns ".//Bal" stmt in
  fold_left read_balance balance_elements result.

Definition get_statement_info : result (list dict) :=
  let statements : list dict := [] in
  stmts ← _find_statements_or_reports;
  mret (fold_left (λ statements stmt, statements ++ [statement_summary stmt])
                  stmts statements).

(** *** The records in closed form *)

(** The record built once the five required nodes are there. *)
Definition common_record (entry statement ref amt ind booked valued : Element)
  : dict :=
  dict_of [
    ("TransactionID", text ref);
    ("AccountIBAN", text_or_None (find ns ".//Acct//Id//IBAN" statement));
    ("Amount", text amt);
    ("Currency", attrib amt !! "Ccy");
    ("CreditDebitIndicator", text ind);
    ("ReversalIndicator", text_or_None (find ns ".//RvslInd" entry));
    ("Status", _parse_status (find ns ".//Sts" entry));
    ("BookingDate", text booked);
    ("ValueDate", text valued);
    ("BankTransactionCode",
      text_or_None (find ns ".//BkTxCd//Domn//Cd" entry));
    ("TransactionFamilyCode",
      text_or_None (find ns ".//BkTxCd//Domn//Fmly//Cd" entry));
    ("TransactionSubFamilyCode",
      text_or_None (find ns ".//BkTxCd//Domn//Fmly//SubFmlyCd" entry));
    ("AdditionalEntryInformation",
      text_or_None (find ns ".//AddtlNtryInf" entry))
  ].

(** The records of one entry-detail grouping: the common record alone when
    the grouping has no transaction-detail, and otherwise one record per
    transaction-detail, the common record merged with its fields. *)
Definition grouping_records (common_data : dict) (ntry_detail : Element)
  : list dict :=
  match findall ns ".//TxDtls" ntry_detail with
  | [] => [common_data]
  | tx_details =>
      map (λ tx_detail,
             dict_merge common_data (_extract_transaction_details tx_detail))
          tx_details
  end.

(** The records of one entry: the common record alone when the entry has no
    grouping, and otherwise the records of its groupings, one grouping after
    the other. *)
Definition entry_records (common_data : dict) (entry : Element) : list dict :=
  match findall ns ".//NtryDtls" entry with
  | [] => [common_data]
  | entry_details => concat (map (grouping_records common_data) entry_details)
  end.

(** The entries of the containers, each with its container: container after
    container, and the entries of a container in document order. *)
Definition entries_of (stmts : list Element) : list (Element * Element) :=
  concat (map (λ stmt, map (λ entry, (entry, stmt))
                           (findall ns ".//Ntry" stmt)) stmts).

End Parser.

(** The keys of the common record. *)
Definition common_keys : list string := [
  "TransactionID"; "AccountIBAN"; "Amount"; "Currency";
  "CreditDebitIndicator"; "ReversalIndicator"; "Status"; "BookingDate";
  "ValueDate"; "BankTransactionCode"; "TransactionFamilyCode";
  "TransactionSubFamilyCode"; "AdditionalEntryInformation" ].

(** The optional keys of the common record that are read from one node of the
    entry, with the path of the node. *)
Definition optional_entry_sources : list (string * string) := [
  ("ReversalIndicator", ".//RvslInd");
  ("Status", ".//Sts");
  ("BankTransactionCode", ".//BkTxCd//Domn//Cd");
  ("TransactionFamilyCode", ".//BkTxCd//Domn//Fmly//Cd");
  ("TransactionSubFamilyCode", ".//BkTxCd//Domn//Fmly//SubFmlyCd");
  ("AdditionalEntryInformation", ".//AddtlNtryInf") ].

(** The keys that only a transaction-detail provides and that are read from
    one node of it, with the path of the node. *)
Definition detail_sources : list (string * string) := [
  ("EndToEndId", ".//Refs//EndToEndId");
  ("MandateId", ".//Refs//MndtId");
  ("CreditorName", ".//RltdPties//Cdtr//Nm");
  ("CreditorIBAN", ".//RltdPties//CdtrAcct//Id//IBAN");
  ("DebtorName", ".//RltdPties//Dbtr//Nm");
  ("DebtorIBAN", ".//RltdPties//DbtrAcct//Id//IBAN");
  ("PurposeCode", ".//Purp//Cd");
  ("RemittanceInformationFull", ".//RmtInf//Ustrd") ].

(** The full remittance text as a reader of "each line trimmed, the non-empty
    ones joined by a single space" expects it: lines that are empty once
    trimmed leave no trace. *)
Definition join_trimmed_nonempty (texts : list (option string)) : string :=
  String.concat " "
    (filter (λ s, s ≠ "") (map strip (omap id texts))).

(** The same with the test for emptiness made before the trimming. *)
Definition join_nonempty_trimmed (texts : list (option string)) : string :=
  String.concat " "
    (map strip (filter (λ s, s ≠ "") (omap id texts))).

(** ** Sample documents *)

Module Sample.

Definition camt : string := "urn:iso:std:iso:20022:tech:xsd:camt.053.001.02".

Definition node (name : string) (cs : list Element) : Element :=
  mkElement (qualify (Some camt) name) None ∅ cs.
Definition leaf (name t : string) : Element :=
  mkElement (qualify (Some camt) name) (Some t) ∅ [].
Definition amt (t : string) : Element :=
  mkElement (qualify (Some camt) "Amt") (Some t) {[ "Ccy" := "EUR" ]} [].

Definition parser_of (body : list Element) : Camt053Parser :=
  {| tree := node "Document" [node "BkToCstmrStmt" body];
     namespaces := Some camt |}.

Definition grp_hdr : Element :=
  node "GrpHdr" [leaf "MsgId" "ABC123";
                 leaf "CreDtTm" "2020-06-23T18:56:25.64Z"].

Definition acct : Element :=
  node "Acct" [node "Id" [leaf "IBAN" "GB33BUKB20201555555555"]].

Definition entry_fields : list Element :=
  [amt "500.00"; leaf "CdtDbtInd" "CRDT";
   node "BookgDt" [leaf "Dt" "2020-06-23"];
   node "ValDt" [leaf "Dt" "2020-06-23"]].

(** An entry with one grouping of one transaction-detail. *)
Definition tx_detail : Element :=
  node "TxDtls" [node "Refs" [leaf "EndToEndId" "ENDTOENDID123"];
                 node "AmtDtls" [node "TxAmt" [amt "499.00"]]].

Definition entry : Element :=
  node "Ntry" (entry_fields ++
               [leaf "AcctSvcrRef" "123"; node "NtryDtls" [tx_detail]]).

Definition statement : Element := node "Stmt" [acct; entry].

Definition parser_stmt : Camt053Parser := parser_of [grp_hdr; statement].

(** The common record of [entry]. *)
Definition common : dict :=
  common_record parser_stmt entry statement
    (leaf "AcctSvcrRef" "123") (amt "500.00") (leaf "CdtDbtInd" "CRDT")
    (leaf "Dt" "2020-06-23") (leaf "Dt" "2020-06-23").

(** The same entry without its [AcctSvcrRef]. *)
Definition entry_no_ref : Element :=
  node "Ntry" (entry_fields ++ [node "NtryDtls" [tx_detail]]).

Definition parser_no_ref : Camt053Parser :=
  parser_of [grp_hdr; node "Stmt" [acct; entry_no_ref]].

(** A group header without its [MsgId]. *)
Definition grp_hdr_no_msg_id : Element :=
  node "GrpHdr" [leaf "CreDtTm" "2020-06-23T18:56:25.64Z"].

Definition parser_no_msg_id : Camt053Parser :=
  parser_of [grp_hdr_no_msg_id; statement].

(** A document with neither a statement nor a report. *)
Definition parser_no_container : Camt053Parser := parser_of [grp_hdr].

(** A statement with a closing balance in debit. *)
Definition debit_balance (t : string) : Element :=
  node "Bal" [node "Tp" [node "CdOrPrtry" [leaf "Cd" "CLBD"]];
              amt t; leaf "CdtDbtInd" "DBIT";
              node "Dt" [leaf "Dt" "2025-07-31"]].

Definition parser_debit (t : string) : Camt053Parser :=
  parser_of [grp_hdr; node "Stmt" [acct; debit_balance t]].

(** A structured remittance block whose [AddtlRmtInf] is an empty element. *)
Definition strd_empty_addtl : Element :=
  node "Strd" [node "CdtrRefInf" [leaf "Ref" "REF1"];
               node "AddtlRmtInf" []].

Definition tx_detail_strd : Element :=
  node "TxDtls" [node "RmtInf" [leaf "Ustrd" "free text"; strd_empty_addtl]].

(** Three unstructured lines, the second of which is a single space. *)
Definition tx_detail_blank_line : Element :=
  node "TxDtls" [node "RmtInf" [leaf "Ustrd" "a"; leaf "Ustrd" " ";
                                leaf "Ustrd" "b"]].

Definition tx_detail_abc : Element :=
  node "TxDtls" [node "RmtInf" [leaf "Ustrd" "a"; leaf "Ustrd" "b";
                                leaf "Ustrd" "c"]].

End Sample.

(** ** Version detection *)

(** [needle in hay] for two strings. *)
Fixpoint contains (needle hay : string) : bool :=
  String.prefix needle hay ||
  match hay with
  | String _ rest => contains needle rest
  | "" => false
  end.

Definition known_versions : list string := [
  "camt.053.001.02"; "camt.053.001.03"; "camt.053.001.04";
  "camt.053.001.08"; "camt.053.001.12" ].

(** The loop of [_detect_version]: the first version found in the tag. *)
Fixpoint first_version_in (versions : list string) (root_tag : string)
  : string :=
  match versions with
  | version :: versions' =>
      if contains version root_tag then version
      else first_version_in versions' root_tag
  | [] => "unknown"
  end.

Definition _detect_version (self : Camt053Parser) : string :=
  let root := tree self in
  first_version_in known_versions (tag root).

(** ** Names used in the statements *)

(** The keys a transaction-detail can provide. *)
Definition detail_keys : list string := [
  "EndToEndId"; "MandateId"; "Amount"; "CreditorName"; "CreditorIBAN";
  "DebtorName"; "DebtorIBAN"; "PurposeCode"; "RemittanceInformation";
  "RemittanceInformationFull"; "AdditionalRemittanceInformation" ].

(** The keys of a statement summary. *)
Definition summary_keys : list string := [
  "IBAN"; "Currency"; "OpeningBalance"; "ClosingBalance";
  "OpeningBalanceDate"; "ClosingBalanceDate" ].

(** The paths of the nodes an entry must have. *)
Definition required_paths : list string := [
  ".//AcctSvcrRef"; ".//Amt"; ".//CdtDbtInd"; ".//BookgDt//*"; ".//ValDt//*" ].

(** An entry that has all of them. *)
Definition complete_entry (self : Camt053Parser) (entry : Element) : Prop :=
  Forall (λ path, is_Some (find (namespaces self) path entry)) required_paths.

#[global] Instance complete_entry_dec (self : Camt053Parser) (entry : Element) :
  Decision (complete_entry self entry).
Proof. unfold complete_entry. apply _. Defined.

(** The type code of a balance node. *)
Definition balance_type (self : Camt053Parser) (balance_elem : Element)
  : option string :=
  text_or_None (find (namespaces self) ".//Tp//CdOrPrtry//Cd" balance_elem).

(** The number of records of an entry: one without grouping, and otherwise,
    over its groupings, one for a grouping without transaction-detail and one
    per transaction-detail for the others. *)
Definition record_count (self : Camt053Parser) (entry : Element) : nat :=
  match findall (namespaces self) ".//NtryDtls" entry with
  | [] => 1%nat
  | entry_details =>
      sum_list (map (λ g, Nat.max 1 (length (findall (namespaces self)
                                                     ".//TxDtls" g)))
                    entry_details)
  end.

(** The exception of the container locator. *)
Definition no_container : exception :=
  Camt053ParseError "Neither 'Stmt' nor 'Rpt' element found".

(** What a balance node stores as its amount and as its date. *)
Definition stored_amount (self : Camt053Parser) (balance_elem : Element)
  : option string :=
  let ns := namespaces self in
  let amount_text := text_or_None (find ns ".//Amt" balance_elem) in
  if truthy amount_text &&
     bool_decide (text_or_None (find ns ".//CdtDbtInd" balance_elem) = Some "DBIT")
  then negate_amount <$> amount_text
  else amount_text.

Definition stored_date (self : Camt053Parser) (balance_elem : Element)
  : option string :=
  let ns := namespaces self in
  match find ns ".//Dt//DtTm" balance_elem with
  | Some date_time_elem => text date_time_elem
  | None => text_or_None (find ns ".//Dt//Dt" balance_elem)
  end.

(** ** More sample documents *)

Module Fixture.

Import Sample.

(** An entry with two groupings: the first with two transaction-details,
    the second with none. *)
Definition tx_one : Element :=
  node "TxDtls" [node "Refs" [leaf "EndToEndId" "E1"]; amt "200.00"].
Definition tx_two : Element :=
  node "TxDtls" [node "Refs" [leaf "EndToEndId" "E2"];
                 node "RmtInf" [leaf "Ustrd" " invoice 7 "]].

Definition batch_entry : Element :=
  node "Ntry" (entry_fields ++
               [leaf "AcctSvcrRef" "456";
                node "NtryDtls" [tx_one; tx_two];
                node "NtryDtls" [node "Btch" [leaf "NbOfTxs" "1"]]]).

Definition batch_statement : Element := node "Stmt" [acct; entry; batch_entry].

Definition parser_batch : Camt053Parser := parser_of [grp_hdr; batch_statement].

(** A report with an opening balance in credit given twice, a balance of
    another type, and a closing balance dated by a date and a date-time. *)
Definition balance (code t ind : string) (dates : list Element) : Element :=
  node "Bal" [node "Tp" [node "CdOrPrtry" [leaf "Cd" code]];
              amt t; leaf "CdtDbtInd" ind; node "Dt" dates].

Definition opening_first : Element :=
  balance "OPBD" "1000.00" "CRDT" [leaf "Dt" "2025-07-30"].
Definition opening_last : Element :=
  balance "OPBD" "1200.50" "CRDT" [leaf "Dt" "2025-07-31"].
Definition interim : Element :=
  balance "ITBD" "7.00" "DBIT" [leaf "Dt" "2025-08-01"].
Definition closing : Element :=
  balance "CLBD" "12.50" "DBIT"
          [leaf "Dt" "2025-08-31"; leaf "DtTm" "2025-08-31T23:59:59"].

Definition report : Element :=
  node "Rpt" [acct; opening_first; closing; interim; opening_last].

Definition parser_rpt : Camt053Parser :=
  {| tree := mkElement "{urn:iso:std:iso:20022:tech:xsd:camt.053.001.08}Document"
                       None ∅ [node "BkToCstmrAcctRpt" [grp_hdr; report]];
     namespaces := Some camt |}.

(** A document with two statements of two accounts, one entry each. *)
Definition acct_b : Element :=
  node "Acct" [node "Id" [leaf "IBAN" "DE02120300000000202051"]].

Definition entry_b : Element :=
  node "Ntry" (entry_fields ++ [leaf "AcctSvcrRef" "789"]).

Definition statement_b : Element := node "Stmt" [acct_b; entry_b].

Definition parser_two_accounts : Camt053Parser :=
  parser_of [grp_hdr; statement; statement_b].

End Fixture.

(** ** Generic facts about loops and dicts *)

Lemma fold_left_append {A B : Type} (f : A → list B) (l : list A) (acc : list B) :
  fold_left (λ acc x, acc ++ f x) l acc = acc ++ concat (map f l).
Proof.
  revert acc. induction l as [|x l IH]; intros acc; simpl.
  - by rewrite app_nil_r.
  - by rewrite IH, app_assoc.
Qed.

Lemma dict_merge_lookup (a b : dict) (k : string) :
  dict_merge a b !! k = match b !! k with Some v => Some v | None => a !! k end.
Proof.
  unfold dict_merge. rewrite lookup_union.
  destruct (b !! k), (a !! k); reflexivity.
Qed.

(** The dict comprehension that drops the [None] values. *)
Lemma lookup_drop_None (m : dict) (k : string) :
  filter (λ kv : string * option string, kv.2 ≠ None) m !! k =
  match m !! k with
  | Some (Some t) => Some (Some t)
  | _ => None
  end.
Proof.
  rewrite map_lookup_filter.
  destruct (m !! k) as [[t|]|]; reflexivity.
Qed.

Lemma dict_of_lookup (items : list (string * option string)) (k : string) :
  dict_of items !! k = last_item k items.
Proof.
  unfold dict_of, last_item.
  assert (H : ∀ m : dict,
            fold_left (λ d kv, <[kv.1 := kv.2]> d) items m !! k =
            fold_left (λ found kv, if String.eqb kv.1 k then Some kv.2 else found)
                      items (m !! k)).
  { induction items as [|[k' v] items IH]; intros m; [reflexivity|].
    simpl. rewrite IH. f_equal. rewrite lookup_insert.
    destruct (String.eqb_spec k' k); by case_decide. }
  rewrite H. by rewrite lookup_empty.
Qed.

Ltac dict_lookup :=
  repeat first [ rewrite lookup_insert_eq
               | rewrite lookup_insert_ne by discriminate ];
  rewrite ?dict_of_lookup; unfold last_item; simpl.

(** ** The common record of an entry *)

Section CommonRecord.
Variable self : Camt053Parser.
Variables entry statement : Element.

Let ns := namespaces self.

Lemma common_entry_data_found ref amt ind booked valued :
  find ns ".//AcctSvcrRef" entry = Some ref →
  find ns ".//Amt" entry = Some amt →
  find ns ".//CdtDbtInd" entry = Some ind →
  find ns ".//BookgDt//*" entry = Some booked →
  find ns ".//ValDt//*" entry = Some valued →
  _extract_common_entry_data self entry statement =
    Return (common_record self entry statement ref amt ind booked valued).
Proof.
  intros H1 H2 H3 H4 H5. unfold _extract_common_entry_data.
  fold ns. rewrite H1, H2, H3, H4, H5. reflexivity.
Qed.

Lemma common_entry_data_missing :
  find ns ".//AcctSvcrRef" entry = None ∨
  find ns ".//Amt" entry = None ∨
  find ns ".//CdtDbtInd" entry = None ∨
  find ns ".//BookgDt//*" entry = None ∨
  find ns ".//ValDt//*" entry = None →
  _extract_common_entry_data self entry statement = Raise no_text.
Proof.
  unfold _extract_common_entry_data. fold ns.
  destruct (find ns ".//AcctSvcrRef" entry); [|reflexivity].
  destruct (find ns ".//Amt" entry); [|reflexivity].
  destruct (find ns ".//CdtDbtInd" entry); [|reflexivity].
  destruct (find ns ".//BookgDt//*" entry); [|reflexivity].
  destruct (find ns ".//ValDt//*" entry); [|reflexivity].
  intros [H|[H|[H|[H|H]]]]; discriminate H.
Qed.

Lemma common_entry_data_cases :
  _extract_common_entry_data self entry statement = Raise no_text ∨
  ∃ ref amt ind booked valued,
    find ns ".//AcctSvcrRef" entry = Some ref ∧
    find ns ".//Amt" entry = Some amt ∧
    find ns ".//CdtDbtInd" entry = Some ind ∧
    find ns ".//BookgDt//*" entry = Some booked ∧
    find ns ".//ValDt//*" entry = Some valued ∧
    _extract_common_entry_data self entry statement =
      Return (common_record self entry statement ref amt ind booked valued).
Proof.
  destruct (find ns ".//AcctSvcrRef" entry) as [ref|] eqn:H1;
    [|left; apply common_entry_data_missing; auto].
  destruct (find ns ".//Amt" entry) as [amt|] eqn:H2;
    [|left; apply common_entry_data_missing; auto].
  destruct (find ns ".//CdtDbtInd" entry) as [ind|] eqn:H3;
    [|left; apply common_entry_data_missing; auto].
  destruct (find ns ".//BookgDt//*" entry) as [booked|] eqn:H4;
    [|left; apply common_entry_data_missing; auto 6].
  destruct (find ns ".//ValDt//*" entry) as [valued|] eqn:H5;
    [|left; apply common_entry_data_missing; auto 6].
  right. exists ref, amt, ind, booked, valued.
  repeat split; try reflexivity.
  by apply common_entry_data_found.
Qed.

Lemma common_entry_data_inv c :
  _extract_common_entry_data self entry statement = Return c →
  ∃ ref amt ind booked valued,
    find ns ".//AcctSvcrRef" entry = Some ref ∧
    find ns ".//Amt" entry = Some amt ∧
    find ns ".//CdtDbtInd" entry = Some ind ∧
    find ns ".//BookgDt//*" entry = Some booked ∧
    find ns ".//ValDt//*" entry = Some valued ∧
    c = common_record self entry statement ref amt ind booked valued.
Proof.
  intros Hc.
  destruct common_entry_data_cases
    as [H|(ref & amt & ind & booked & valued & H1 & H2 & H3 & H4 & H5 & H)];
    rewrite H in Hc; [discriminate|].
  injection Hc as <-. by exists ref, amt, ind, booked, valued.
Qed.

End CommonRecord.

(** ** The fields of a transaction-detail *)

Section Details.
Variable self : Camt053Parser.
Variable tx_detail : Element.

Let ns := namespaces self.

Lemma details_no_None (k : string) :
  _extract_transaction_details self tx_detail !! k ≠ Some None.
Proof.
  unfold _extract_transaction_details. rewrite lookup_drop_None.
  by destruct (_ !! k) as [[t|]|].
Qed.

Lemma details_source_absent (k path : string) :
  (k, path) ∈ detail_sources →
  find ns path tx_detail = None →
  _extract_transaction_details self tx_detail !! k = None.
Proof.
  unfold detail_sources. intros Hin Hfind.
  unfold _extract_transaction_details. rewrite lookup_drop_None. fold ns.
  repeat (apply elem_of_cons in Hin as [[= -> ->]|Hin]);
    try (by apply elem_of_nil in Hin);
    destruct (find ns ".//RmtInf//Strd" tx_detail); dict_lookup;
    try (rewrite Hfind; reflexivity);
    unfold find in Hfind;
    by destruct (findall ns ".//RmtInf//Ustrd" tx_detail).
Qed.

Lemma details_Currency :
  _extract_transaction_details self tx_detail !! "Currency" = None.
Proof.
  unfold _extract_transaction_details. rewrite lookup_drop_None.
  destruct (find _ ".//RmtInf//Strd" tx_detail); by dict_lookup.
Qed.

Lemma details_common_key (k : string) :
  k ∈ common_keys → k ≠ "Amount" →
  _extract_transaction_details self tx_detail !! k = None.
Proof.
  unfold common_keys. intros Hin Hk.
  unfold _extract_transaction_details. rewrite lookup_drop_None.
  repeat (apply elem_of_cons in Hin as [->|Hin]);
    try (by apply elem_of_nil in Hin); try done;
    destruct (find _ ".//RmtInf//Strd" tx_detail); by dict_lookup.
Qed.

Lemma details_RemittanceInformationFull :
  _extract_transaction_details self tx_detail !! "RemittanceInformationFull" =
  match findall ns ".//RmtInf//Ustrd" tx_detail with
  | [] => None
  | lines => Some (Some (join_remittance lines))
  end.
Proof.
  unfold _extract_transaction_details. rewrite lookup_drop_None. fold ns.
  destruct (find ns ".//RmtInf//Strd" tx_detail); dict_lookup;
    by destruct (findall ns ".//RmtInf//Ustrd" tx_detail).
Qed.

End Details.

Lemma join_remittance_texts (lines : list Element) :
  join_remittance lines = join_nonempty_trimmed (map text lines).
Proof.
  unfold join_remittance, join_nonempty_trimmed. f_equal.
  induction lines as [|rinfo lines IH]; [reflexivity|].
  cbn [omap list_omap map]. rewrite IH.
  destruct (text rinfo) as [[|c t]|]; reflexivity.
Qed.

(** C10: merging a transaction-detail into the common record of an entry
    leaves [Currency] as it is. Detail extraction never yields a [Currency]
    key, so the merged record keeps the value of the common record, which is
    the [Ccy] attribute of the first amount node of the entry, whatever
    [Amount] the detail supplies. *)
Theorem merge_keeps_Currency (self : Camt053Parser)
    (entry statement tx_detail : Element) (common_data : dict) :
  _extract_common_entry_data self entry statement = Return common_data →
  _extract_transaction_details self tx_detail !! "Currency" = None ∧
  dict_merge common_data (_extract_transaction_details self tx_detail)
    !! "Currency" = common_data !! "Currency" ∧
  ∃ amt, find (namespaces self) ".//Amt" entry = Some amt ∧
         common_data !! "Currency" = Some (attrib amt !! "Ccy").
Proof.
  intros Hc. split; [apply details_Currency|]. split.
  - rewrite dict_merge_lookup. by rewrite details_Currency.
  - apply common_entry_data_inv in Hc
      as (ref & amt & ind & booked & valued & _ & Hamt & _ & _ & _ & ->).
    exists amt. split; [exact Hamt|].
    unfold common_record. by dict_lookup.
Qed.

Lemma merge_keeps_Currency_witness :
  _extract_common_entry_data Sample.parser_stmt Sample.entry Sample.statement =
    Return Sample.common ∧
  dict_merge Sample.common
    (_extract_transaction_details Sample.parser_stmt Sample.tx_detail)
    !! "Currency" = Some (Some "EUR").
Proof.
  split; [reflexivity|].
  etransitivity.
  - apply (merge_keeps_Currency Sample.parser_stmt Sample.entry
             Sample.statement Sample.tx_detail).
    reflexivity.
  - reflexivity.
Defined.

(** C5, as amended: when a transaction-detail has a structured remittance
    block, [RemittanceInformation] is the text of the structured creditor
    reference and is dropped when there is no reference node, whatever the
    unstructured lines are; [AdditionalRemittanceInformation] is the text of
    the free-text node of the block, so the key is present exactly when that
    node exists and carries text; [RemittanceInformationFull] is what the
    unstructured lines alone give. *)
Theorem structured_remittance (self : Camt053Parser) (tx_detail strd : Element) :
  find (namespaces self) ".//RmtInf//Strd" tx_detail = Some strd →
  let ns := namespaces self in
  let d := _extract_transaction_details self tx_detail in
  d !! "RemittanceInformation" =
    Some <$> text_or_None (find ns ".//CdtrRefInf//Ref" strd) ∧
  (find ns ".//CdtrRefInf//Ref" strd = None →
   d !! "RemittanceInformation" = None) ∧
  d !! "AdditionalRemittanceInformation" =
    Some <$> text_or_None (find ns ".//AddtlRmtInf" strd) ∧
  (is_Some (d !! "AdditionalRemittanceInformation") ↔
   ∃ a t, find ns ".//AddtlRmtInf" strd = Some a ∧ text a = Some t) ∧
  d !! "RemittanceInformationFull" =
    match findall ns ".//RmtInf//Ustrd" tx_detail with
    | [] => None
    | lines => Some (Some (join_remittance lines))
    end.
Proof.
  intros Hstrd ns d. subst ns.
  assert (Hri : d !! "RemittanceInformation" =
                Some <$> text_or_None
                           (find (namespaces self) ".//CdtrRefInf//Ref" strd)).
  { subst d. unfold _extract_transaction_details.
    rewrite lookup_drop_None, Hstrd. dict_lookup.
    by destruct (text_or_None _). }
  assert (Hadd : d !! "AdditionalRemittanceInformation" =
                 Some <$> text_or_None
                            (find (namespaces self) ".//AddtlRmtInf" strd)).
  { subst d. unfold _extract_transaction_details.
    rewrite lookup_drop_None, Hstrd. dict_lookup.
    by destruct (text_or_None _). }
  repeat split.
  - exact Hri.
  - intros Href. rewrite Hri, Href. reflexivity.
  - exact Hadd.
  - rewrite Hadd. intros [v Hv].
    destruct (find _ ".//AddtlRmtInf" strd) as [a|]; [|discriminate].
    simpl in Hv. destruct (text a) as [t|] eqn:Ht; [|discriminate].
    by exists a, t.
  - intros (a & t & Ha & Ht). rewrite Hadd, Ha. simpl. rewrite Ht. by eexists.
  - apply details_RemittanceInformationFull.
Qed.

Lemma structured_remittance_witness :
  find (namespaces Sample.parser_stmt) ".//RmtInf//Strd" Sample.tx_detail_strd =
    Some Sample.strd_empty_addtl ∧
  _extract_transaction_details Sample.parser_stmt Sample.tx_detail_strd
    !! "RemittanceInformation" = Some (Some "REF1").
Proof.
  assert (Hstrd : find (namespaces Sample.parser_stmt) ".//RmtInf//Strd"
                    Sample.tx_detail_strd = Some Sample.strd_empty_addtl)
    by reflexivity.
  split; [exact Hstrd|].
  pose proof (structured_remittance _ _ _ Hstrd) as H. cbv zeta in H.
  destruct H as (H & _). rewrite H. reflexivity.
Defined.

(** C5 as stated fails: the structured block of this transaction-detail has
    its free-text node, an empty element, and the record has no
    [AdditionalRemittanceInformation] key. *)
Lemma structured_remittance_empty_free_text :
  find (namespaces Sample.parser_stmt) ".//RmtInf//Strd" Sample.tx_detail_strd =
    Some Sample.strd_empty_addtl ∧
  find (namespaces Sample.parser_stmt) ".//AddtlRmtInf" Sample.strd_empty_addtl
    = Some (Sample.node "AddtlRmtInf" []) ∧
  _extract_transaction_details Sample.parser_stmt Sample.tx_detail_strd
    !! "AdditionalRemittanceInformation" = None.
Proof. repeat split; reflexivity. Qed.

(** C6, as amended: [RemittanceInformationFull] is absent when the
    transaction-detail has no unstructured line; otherwise it is made of the
    lines whose text is not empty, each of them trimmed, joined by single
    spaces in document order. The test for emptiness comes before the
    trimming. Lines a, b, c give "a b c" and the single line x gives "x". *)
Theorem remittance_full (self : Camt053Parser) (tx_detail : Element) :
  _extract_transaction_details self tx_detail !! "RemittanceInformationFull" =
    match findall (namespaces self) ".//RmtInf//Ustrd" tx_detail with
    | [] => None
    | lines => Some (Some (join_nonempty_trimmed (map text lines)))
    end ∧
  join_nonempty_trimmed [Some "a"; Some "b"; Some "c"] = "a b c" ∧
  join_nonempty_trimmed [Some "x"] = "x".
Proof.
  split; [|split; reflexivity].
  rewrite details_RemittanceInformationFull.
  destruct (findall _ _ tx_detail) as [|l ls]; [reflexivity|].
  by rewrite join_remittance_texts.
Qed.

Example remittance_full_abc :
  _extract_transaction_details Sample.parser_stmt Sample.tx_detail_abc
    !! "RemittanceInformationFull" = Some (Some "a b c").
Proof. reflexivity. Qed.

(** C6 as stated fails: of the lines "a", " " and "b" the second is empty
    once trimmed, and still takes part in the join. *)
Lemma remittance_full_blank_line :
  map text (findall (namespaces Sample.parser_stmt) ".//RmtInf//Ustrd"
              Sample.tx_detail_blank_line) = [Some "a"; Some " "; Some "b"] ∧
  join_trimmed_nonempty [Some "a"; Some " "; Some "b"] = "a b" ∧
  _extract_transaction_details Sample.parser_stmt Sample.tx_detail_blank_line
    !! "RemittanceInformationFull" = Some (Some "a  b").
Proof. repeat split; reflexivity. Qed.

(** ** Loops that collect records *)

Lemma traverse_Return {A B : Type} (f : A → result B) (l : list A) (ys : list B) :
  traverse f l = Return ys ↔ Forall2 (λ x y, f x = Return y) l ys.
Proof.
  revert ys. induction l as [|x l IH]; intros ys; simpl.
  - split.
    + intros [= <-]. constructor.
    + intros H. by inversion H.
  - split.
    + destruct (f x) as [y|e] eqn:Hx; [|discriminate]. simpl.
      destruct (traverse f l) as [ys'|e] eqn:Hl; [|discriminate]. simpl.
      intros [= <-]. constructor; [exact Hx | by apply IH].
    + intros H. inversion H as [|? y ? ys' Hx Hl]; subst.
      rewrite Hx. simpl. apply IH in Hl. by rewrite Hl.
Qed.

Lemma traverse_Raise {A B : Type} (f : A → result B) (l : list A)
    (e : exception) (x : A) :
  x ∈ l → f x = Raise e →
  (∀ y, y ∈ l → f y = Raise e ∨ ∃ r, f y = Return r) →
  traverse f l = Raise e.
Proof.
  intros Hin Hx Hall. induction l as [|y l IH]; [by apply elem_of_nil in Hin|].
  simpl. destruct (Hall y) as [Hy|[r Hy]]; [left| |]; rewrite Hy; [done|].
  simpl. apply elem_of_cons in Hin as [->|Hin]; [congruence|].
  rewrite IH; [done|done|]. intros z Hz. apply Hall. by right.
Qed.

Lemma traverse_app {A B : Type} (f : A → result B) (l1 l2 : list A) :
  traverse f (l1 ++ l2) =
  ys1 ← traverse f l1; ys2 ← traverse f l2; mret (ys1 ++ ys2).
Proof.
  induction l1 as [|x l1 IH]; simpl.
  - by destruct (traverse f l2).
  - destruct (f x); [|reflexivity]. simpl. rewrite IH.
    destruct (traverse f l1); [|reflexivity]. simpl.
    by destruct (traverse f l2).
Qed.

Lemma elem_of_concat {A : Type} (x : A) (ls : list (list A)) :
  x ∈ concat ls ↔ ∃ l, x ∈ l ∧ l ∈ ls.
Proof.
  induction ls as [|l ls IH]; simpl.
  - split; [by intros ?%elem_of_nil | by intros (l & _ & ?%elem_of_nil)].
  - rewrite elem_of_app, IH. split.
    + intros [H|(l' & Hx & Hl')].
      * exists l. split; [done | by left].
      * exists l'. split; [done | by right].
    + intros (l' & Hx & [->|Hl']%elem_of_cons); [by left|].
      right. by exists l'.
Qed.

(** A loop that extends a list by what [f] gives for each element. *)
Lemma for_each_extend {A B : Type} (f : A → result (list B)) (l : list A)
    (acc : list B) :
  for_each l (λ acc x, ex ← f x; mret (acc ++ ex)) acc =
  rss ← traverse f l; mret (acc ++ concat rss).
Proof.
  revert acc. induction l as [|x l IH]; intros acc; simpl.
  - by rewrite app_nil_r.
  - destruct (f x) as [ex|e]; [|reflexivity]. simpl. rewrite IH.
    destruct (traverse f l) as [rss|e]; [|reflexivity]. simpl.
    by rewrite app_assoc.
Qed.

Lemma for_each_ext {A S : Type} (body body' : S → A → result S) (l : list A)
    (s : S) :
  (∀ s x, body s x = body' s x) → for_each l body s = for_each l body' s.
Proof.
  intros Hext. revert s. induction l as [|x l IH]; intros s; simpl; [done|].
  rewrite Hext. destruct (body' s x); [|reflexivity]. apply IH.
Qed.

(** Two nested loops collect what one loop over the pairs collects. *)
Lemma traverse_nested {A B C : Type} (g : A → list B) (f : B → A → result (list C))
    (l : list A) :
  (rsss ← traverse (λ a, rss ← traverse (λ b, f b a) (g a); mret (concat rss)) l;
   mret (concat rsss)) =
  (rss ← traverse (λ p : B * A, f p.1 p.2)
                  (concat (map (λ a, map (λ b, (b, a)) (g a)) l));
   mret (concat rss)).
Proof.
  induction l as [|a l IH]; [reflexivity|].
  simpl. rewrite traverse_app.
  assert (Hmap : traverse (λ p : B * A, f p.1 p.2) (map (λ b, (b, a)) (g a)) =
                 traverse (λ b, f b a) (g a)).
  { induction (g a) as [|b bs IHb]; [reflexivity|].
    simpl. by rewrite IHb. }
  rewrite Hmap. destruct (traverse (λ b, f b a) (g a)) as [rss|e]; [|reflexivity].
  simpl in *.
  destruct (traverse (λ a0, _) l) as [rsss|e];
    destruct (traverse (λ p : B * A, f p.1 p.2) _) as [rss'|e'];
    unfold mret, result_ret in *; simpl in *; try congruence.
  injection IH as IH. by rewrite concat_app, IH.
Qed.

(** ** The records of an entry and of a document *)

Section Transactions.
Variable self : Camt053Parser.

Let ns := namespaces self.

Lemma grouping_fold (common_data : dict) (entry_details : list Element)
    (transactions : list dict) :
  fold_left (λ transactions ntry_detail,
    let tx_details := findall ns ".//TxDtls" ntry_detail in
    match tx_details with
    | [] => transactions ++ [common_data]
    | [tx_detail] =>
        transactions ++
          [dict_merge common_data
                      (_extract_transaction_details self tx_detail)]
    | _ =>
        fold_left (λ transactions tx_detail,
          transactions ++
            [dict_merge common_data
                        (_extract_transaction_details self tx_detail)])
          tx_details transactions
    end) entry_details transactions =
  transactions ++ concat (map (grouping_records self common_data) entry_details).
Proof.
  revert transactions.
  induction entry_details as [|g gs IH]; intros transactions.
  - simpl. by rewrite app_nil_r.
  - cbn [fold_left map concat]. rewrite IH, app_assoc. f_equal.
    unfold grouping_records. fold ns.
    destruct (findall ns ".//TxDtls" g) as [|t1 [|t2 ts]]; try reflexivity.
    rewrite (fold_left_append
               (λ t, [dict_merge common_data
                        (_extract_transaction_details self t)])).
    f_equal. generalize (t1 :: t2 :: ts). intros l.
    induction l as [|t l IHl]; [reflexivity|]. simpl. by rewrite IHl.
Qed.

Lemma extract_transaction_closed (entry statement : Element) :
  _extract_transaction self entry statement =
  common_data ← _extract_common_entry_data self entry statement;
  mret (entry_records self common_data entry).
Proof.
  unfold _extract_transaction.
  destruct (_extract_common_entry_data self entry statement) as [c|e];
    [|reflexivity].
  simpl. f_equal. unfold entry_records. fold ns.
  destruct (findall ns ".//NtryDtls" entry) as [|g gs] eqn:Hgs;
    [reflexivity|].
  apply (grouping_fold c (g :: gs) []).
Qed.

Lemma extract_transaction_cases (entry statement : Element) :
  _extract_transaction self entry statement = Raise no_text ∨
  ∃ c, _extract_common_entry_data self entry statement = Return c ∧
       _extract_transaction self entry statement =
         Return (entry_records self c entry).
Proof.
  rewrite extract_transaction_closed.
  destruct (common_entry_data_cases self entry statement)
    as [H|(ref & amt & ind & booked & valued & _ & _ & _ & _ & _ & H)];
    rewrite H; [by left|right]. by eexists.
Qed.

Lemma get_transactions_closed :
  get_transactions self =
  stmts ← _find_statements_or_reports self;
  rss ← traverse (λ p : Element * Element, _extract_transaction self p.1 p.2)
                 (entries_of self stmts);
  mret (concat rss).
Proof.
  unfold get_transactions.
  destruct (_find_statements_or_reports self) as [stmts|e]; [|reflexivity].
  simpl. fold ns.
  rewrite (for_each_ext _
    (λ transactions statement,
       ex ← (rss ← traverse (λ entry, _extract_transaction self entry statement)
                            (findall ns ".//Ntry" statement);
             mret (concat rss));
       mret (transactions ++ ex))).
  - rewrite for_each_extend. simpl.
    apply (traverse_nested (findall ns ".//Ntry")
                           (λ entry statement,
                              _extract_transaction self entry statement)).
  - intros transactions statement. rewrite for_each_extend.
    by destruct (traverse _ _).
Qed.

Lemma entry_records_elem (c : dict) (entry : Element) (d : dict) :
  d ∈ entry_records self c entry →
  d = c ∨ ∃ tx_detail,
    d = dict_merge c (_extract_transaction_details self tx_detail).
Proof.
  unfold entry_records.
  destruct (findall _ ".//NtryDtls" entry) as [|g gs].
  - intros ->%list_elem_of_singleton. by left.
  - generalize (g :: gs). intros l Hin.
    apply elem_of_concat in Hin as (rs & Hd & Hrs).
    apply list_elem_of_fmap in Hrs as (g' & -> & _).
    unfold grouping_records in Hd.
    destruct (findall _ ".//TxDtls" g') as [|t ts].
    + apply list_elem_of_singleton in Hd. by left.
    + apply list_elem_of_fmap in Hd as (td & -> & _). right. by exists td.
Qed.

End Transactions.

(** ** The keys of the common record *)

Section CommonKeys.
Variable self : Camt053Parser.
Variables entry statement ref amt ind booked valued : Element.

Let ns := namespaces self.
Let c := common_record self entry statement ref amt ind booked valued.

Lemma common_record_key (k : string) : k ∈ common_keys → is_Some (c !! k).
Proof.
  unfold common_keys. intros Hin.
  repeat (apply elem_of_cons in Hin as [->|Hin]);
    try (by apply elem_of_nil in Hin);
    subst c; unfold common_record; dict_lookup; by eexists.
Qed.

Lemma common_record_other (k : string) : k ∉ common_keys → c !! k = None.
Proof.
  unfold common_keys. intros Hk.
  subst c; unfold common_record, dict_of; simpl.
  rewrite !lookup_insert_ne; [apply lookup_empty|..];
    intros <-; apply Hk; set_solver.
Qed.

Lemma common_record_optional (k path : string) :
  (k, path) ∈ optional_entry_sources →
  find ns path entry = None →
  c !! k = Some None ∧ k ∈ common_keys ∧ k ≠ "Amount".
Proof.
  unfold optional_entry_sources. intros Hin Hfind.
  repeat (apply elem_of_cons in Hin as [[= -> ->]|Hin]);
    try (by apply elem_of_nil in Hin);
    (split; [|split; [unfold common_keys; set_solver | discriminate]]);
    subst c; unfold common_record; dict_lookup; fold ns;
    by rewrite Hfind.
Qed.

Lemma common_record_AccountIBAN :
  find ns ".//Acct//Id//IBAN" statement = None →
  c !! "AccountIBAN" = Some None.
Proof.
  intros Hfind. subst c; unfold common_record; dict_lookup. fold ns.
  by rewrite Hfind.
Qed.

End CommonKeys.

(** The elements a one-step path finds are the proper descendants with the
    tag of the step, in the order of [iter], which is document order. *)
Lemma findall_one_step (default_ns : option string) (name : string)
    (e : Element) :
  fold_left (λ res sel, prepare_descendant default_ns sel res) [Tag name] [e] =
  filter (λ x, selects default_ns (Tag name) x = true) (tail (iter e)).
Proof. simpl. unfold prepare_descendant. simpl. apply app_nil_r. Qed.

(** C4: the records of one entry. An entry without grouping gives one
    record, its common record; otherwise each grouping gives, in turn, the
    common record when it has no transaction-detail, and one record per
    transaction-detail when it has one or more, each the common record merged
    with the fields of the detail, those of the detail winning. *)
Theorem entry_fan_out (self : Camt053Parser) (entry statement : Element)
    (common_data : dict) :
  _extract_common_entry_data self entry statement = Return common_data →
  let ns := namespaces self in
  let merged := λ tx_detail,
    dict_merge common_data (_extract_transaction_details self tx_detail) in
  ∃ transactions,
    _extract_transaction self entry statement = Return transactions ∧
    (findall ns ".//NtryDtls" entry = [] → transactions = [common_data]) ∧
    (findall ns ".//NtryDtls" entry ≠ [] →
     transactions =
       concat (map (grouping_records self common_data)
                   (findall ns ".//NtryDtls" entry))) ∧
    length transactions =
      match findall ns ".//NtryDtls" entry with
      | [] => 1%nat
      | entry_details =>
          sum_list (map (λ g, Nat.max 1 (length (findall ns ".//TxDtls" g)))
                        entry_details)
      end ∧
    (∀ g, findall ns ".//TxDtls" g = [] →
          grouping_records self common_data g = [common_data]) ∧
    (∀ g tx_detail, findall ns ".//TxDtls" g = [tx_detail] →
          grouping_records self common_data g = [merged tx_detail]) ∧
    (∀ g, (2 ≤ length (findall ns ".//TxDtls" g))%nat →
          grouping_records self common_data g =
            map merged (findall ns ".//TxDtls" g) ∧
          length (grouping_records self common_data g) =
            length (findall ns ".//TxDtls" g)) ∧
    (∀ tx_detail k,
       merged tx_detail !! k =
       match _extract_transaction_details self tx_detail !! k with
       | Some v => Some v
       | None => common_data !! k
       end).
Proof.
  intros Hc ns merged. exists (entry_records self common_data entry).
  split; [by rewrite extract_transaction_closed, Hc|].
  assert (Hlen : ∀ g, length (grouping_records self common_data g) =
                      Nat.max 1 (length (findall ns ".//TxDtls" g))).
  { intros g. unfold grouping_records. fold ns.
    destruct (findall ns ".//TxDtls" g) as [|t ts]; [reflexivity|].
    rewrite length_map. simpl. lia. }
  repeat split.
  - unfold entry_records. fold ns. by intros ->.
  - unfold entry_records. fold ns.
    by destruct (findall ns ".//NtryDtls" entry).
  - unfold entry_records. fold ns.
    destruct (findall ns ".//NtryDtls" entry) as [|g gs]; [reflexivity|].
    generalize (g :: gs). intros l.
    induction l as [|g' l IH]; [reflexivity|].
    cbn [map concat sum_list sum_list_with]. rewrite length_app, Hlen, IH.
    reflexivity.
  - intros g Hg. unfold grouping_records. fold ns. by rewrite Hg.
  - intros g tx_detail Hg. unfold grouping_records. fold ns. by rewrite Hg.
  - unfold grouping_records. fold ns.
    by destruct (findall ns ".//TxDtls" g) as [|t ts]; [simpl in *; lia|].
  - rewrite Hlen. lia.
  - intros tx_detail k. apply dict_merge_lookup.
Qed.

Lemma entry_fan_out_witness :
  _extract_common_entry_data Sample.parser_stmt Sample.entry Sample.statement =
    Return Sample.common ∧
  ∃ transactions,
    _extract_transaction Sample.parser_stmt Sample.entry Sample.statement =
      Return transactions ∧
    length transactions = 1%nat.
Proof.
  assert (Hc : _extract_common_entry_data Sample.parser_stmt Sample.entry
                 Sample.statement =
               Return Sample.common)
    by reflexivity.
  split; [exact Hc|].
  pose proof (entry_fan_out _ _ _ _ Hc) as H. cbv zeta in H.
  destruct H as (transactions & Htx & _ & _ & Hlen & _).
  exists transactions. split; [exact Htx|].
  rewrite Hlen. reflexivity.
Defined.

(** What [get_transactions] returns, entry by entry. *)
Lemma get_transactions_Return (self : Camt053Parser) (transactions : list dict) :
  get_transactions self = Return transactions ↔
  ∃ stmts rss,
    _find_statements_or_reports self = Return stmts ∧
    Forall2 (λ (p : Element * Element) rs,
               ∃ common_data,
                 _extract_common_entry_data self p.1 p.2 = Return common_data ∧
                 rs = entry_records self common_data p.1)
            (entries_of self stmts) rss ∧
    transactions = concat rss.
Proof.
  rewrite get_transactions_closed. split.
  - destruct (_find_statements_or_reports self) as [stmts|e]; [|discriminate].
    simpl.
    destruct (traverse _ (entries_of self stmts)) as [rss|e] eqn:Hrss;
      [|discriminate].
    intros [= <-]. exists stmts, rss. split; [reflexivity|]. split; [|reflexivity].
    apply traverse_Return in Hrss.
    eapply Forall2_impl; [exact Hrss|].
    intros [entry statement] rs Hrs. simpl in *.
    destruct (extract_transaction_cases self entry statement)
      as [H|(c & Hc & H)]; rewrite H in Hrs; [discriminate|].
    injection Hrs as <-. by exists c.
  - intros (stmts & rss & -> & Hrss & ->). simpl.
    assert (Htr : traverse (λ p : Element * Element,
                              _extract_transaction self p.1 p.2)
                           (entries_of self stmts) = Return rss).
    { apply traverse_Return. eapply Forall2_impl; [exact Hrss|].
      intros [entry statement] rs (c & Hc & ->). simpl in *.
      by rewrite extract_transaction_closed, Hc. }
    by rewrite Htr.
Qed.

(** C9: the list that [get_transactions] returns is the concatenation, over
    the entries of the containers taken container after container and, in a
    container, in document order, of the records of each entry; and the
    records of an entry are those of its groupings in document order, each
    grouping giving its transaction-details in document order. *)
Theorem transactions_in_document_order (self : Camt053Parser)
    (transactions : list dict) :
  let ns := namespaces self in
  (get_transactions self = Return transactions ↔
   ∃ stmts rss,
     _find_statements_or_reports self = Return stmts ∧
     Forall2 (λ (p : Element * Element) rs,
                ∃ common_data,
                  _extract_common_entry_data self p.1 p.2 = Return common_data ∧
                  rs = entry_records self common_data p.1)
             (entries_of self stmts) rss ∧
     transactions = concat rss) ∧
  (∀ stmts,
     entries_of self stmts =
     concat (map (λ stmt, map (λ entry, (entry, stmt))
                   (filter (λ x, selects ns (Tag "Ntry") x = true)
                           (tail (iter stmt)))) stmts)) ∧
  (∀ common_data entry,
     entry_records self common_data entry =
     match filter (λ x, selects ns (Tag "NtryDtls") x = true) (tail (iter entry))
     with
     | [] => [common_data]
     | entry_details =>
         concat (map (grouping_records self common_data) entry_details)
     end) ∧
  (∀ common_data g,
     grouping_records self common_data g =
     match filter (λ x, selects ns (Tag "TxDtls") x = true) (tail (iter g)) with
     | [] => [common_data]
     | tx_details =>
         map (λ tx_detail,
                dict_merge common_data
                           (_extract_transaction_details self tx_detail))
             tx_details
     end).
Proof.
  intros ns. split; [|repeat split].
  - apply get_transactions_Return.
  - intros stmts. unfold entries_of. f_equal.
    apply map_ext. intros stmt. f_equal. apply findall_one_step.
  - intros common_data entry. unfold entry_records.
    replace (findall (namespaces self) ".//NtryDtls" entry)
      with (filter (λ x, selects ns (Tag "NtryDtls") x = true)
                   (tail (iter entry)));
      [reflexivity | symmetry; apply findall_one_step].
  - intros common_data g. unfold grouping_records.
    replace (findall (namespaces self) ".//TxDtls" g)
      with (filter (λ x, selects ns (Tag "TxDtls") x = true) (tail (iter g)));
      [reflexivity | symmetry; apply findall_one_step].
Qed.

Lemma transactions_in_document_order_witness :
  get_transactions Sample.parser_stmt =
    Return [dict_merge Sample.common
              (_extract_transaction_details Sample.parser_stmt Sample.tx_detail)].
Proof.
  apply (transactions_in_document_order Sample.parser_stmt).
  exists [Sample.statement],
         [[dict_merge Sample.common
             (_extract_transaction_details Sample.parser_stmt Sample.tx_detail)]].
  split; [reflexivity|]. split; [|reflexivity].
  change (entries_of Sample.parser_stmt [Sample.statement])
    with [(Sample.entry, Sample.statement)].
  constructor; [|constructor].
  exists Sample.common. split; reflexivity.
Defined.

(** C3, as amended: when the containers are found and one of their entries
    lacks the node of TransactionID, Amount, CreditDebitIndicator,
    BookingDate or ValueDate, [get_transactions] fails, and the failure is
    the [AttributeError] of reading [.text] on [None]; it is not a
    [Camt053ParseError]. *)
Theorem missing_required_field (self : Camt053Parser) (stmts : list Element)
    (statement entry : Element) :
  let ns := namespaces self in
  _find_statements_or_reports self = Return stmts →
  statement ∈ stmts →
  entry ∈ findall ns ".//Ntry" statement →
  find ns ".//AcctSvcrRef" entry = None ∨
  find ns ".//Amt" entry = None ∨
  find ns ".//CdtDbtInd" entry = None ∨
  find ns ".//BookgDt//*" entry = None ∨
  find ns ".//ValDt//*" entry = None →
  get_transactions self =
    Raise (AttributeError "'NoneType' object has no attribute 'text'").
Proof.
  intros ns Hstmts Hstatement Hentry Hmissing.
  rewrite get_transactions_closed, Hstmts. simpl.
  rewrite (traverse_Raise _ _ no_text (entry, statement)); [reflexivity|..].
  - unfold entries_of. apply elem_of_concat.
    exists (map (λ entry, (entry, statement)) (findall ns ".//Ntry" statement)).
    split.
    + apply (list_elem_of_fmap_2 (λ entry, (entry, statement))). exact Hentry.
    + apply (list_elem_of_fmap_2
               (λ stmt, map (λ entry, (entry, stmt)) (findall ns ".//Ntry" stmt))).
      exact Hstatement.
  - simpl. rewrite extract_transaction_closed.
    by rewrite common_entry_data_missing.
  - intros [entry' statement'] _. simpl.
    destruct (extract_transaction_cases self entry' statement')
      as [H|(c & _ & H)]; [by left|right]. by eexists.
Qed.

Lemma missing_required_field_witness :
  get_transactions Sample.parser_no_ref =
    Raise (AttributeError "'NoneType' object has no attribute 'text'").
Proof.
  apply (missing_required_field Sample.parser_no_ref
           [Sample.node "Stmt" [Sample.acct; Sample.entry_no_ref]]
           (Sample.node "Stmt" [Sample.acct; Sample.entry_no_ref])
           Sample.entry_no_ref).
  - reflexivity.
  - apply list_elem_of_singleton. reflexivity.
  - change (findall (namespaces Sample.parser_no_ref) ".//Ntry"
              (Sample.node "Stmt" [Sample.acct; Sample.entry_no_ref]))
      with [Sample.entry_no_ref].
    apply list_elem_of_singleton. reflexivity.
  - left. reflexivity.
Defined.

(** C3 as stated fails: the entry of this statement has no [AcctSvcrRef],
    and [get_transactions] ends with an [AttributeError], which is not the
    parse error of the parser. *)
Lemma missing_TransactionID_is_AttributeError :
  findall (namespaces Sample.parser_no_ref) ".//Ntry"
    (Sample.node "Stmt" [Sample.acct; Sample.entry_no_ref]) =
    [Sample.entry_no_ref] ∧
  find (namespaces Sample.parser_no_ref) ".//AcctSvcrRef" Sample.entry_no_ref =
    None ∧
  get_transactions Sample.parser_no_ref =
    Raise (AttributeError "'NoneType' object has no attribute 'text'") ∧
  ∀ msg, get_transactions Sample.parser_no_ref ≠ Raise (Camt053ParseError msg).
Proof.
  assert (H : get_transactions Sample.parser_no_ref =
              Raise (AttributeError "'NoneType' object has no attribute 'text'"))
    by reflexivity.
  repeat split; try (reflexivity).
  intros msg. rewrite H. discriminate.
Qed.

(** A record of an entry is its common record, or the common record merged
    with one of the transaction-details of one of its groupings. *)
Lemma entry_records_elem_located (self : Camt053Parser) (c : dict)
    (entry : Element) (d : dict) :
  d ∈ entry_records self c entry →
  d = c ∨
  ∃ ntry_detail tx_detail,
    ntry_detail ∈ findall (namespaces self) ".//NtryDtls" entry ∧
    tx_detail ∈ findall (namespaces self) ".//TxDtls" ntry_detail ∧
    d = dict_merge c (_extract_transaction_details self tx_detail).
Proof.
  unfold entry_records.
  destruct (findall _ ".//NtryDtls" entry) as [|g gs].
  - intros ->%list_elem_of_singleton. by left.
  - generalize (g :: gs). intros l Hin.
    apply elem_of_concat in Hin as (rs & Hd & Hrs).
    apply list_elem_of_fmap in Hrs as (g' & -> & Hg').
    unfold grouping_records in Hd.
    destruct (findall _ ".//TxDtls" g') as [|t ts] eqn:Hts.
    + apply list_elem_of_singleton in Hd. by left.
    + apply list_elem_of_fmap in Hd as (td & -> & Htd). right.
      exists g', td. rewrite Hts. by repeat split.
Qed.

(** The two remittance keys that depend on the structured block are absent
    when their source node is. *)
Lemma details_remittance_absent (self : Camt053Parser) (tx_detail : Element) :
  let ns := namespaces self in
  let data := _extract_transaction_details self tx_detail in
  (find ns ".//RmtInf//Strd" tx_detail = None →
   (find ns ".//RmtInf//Ustrd" tx_detail = None →
    data !! "RemittanceInformation" = None) ∧
   data !! "AdditionalRemittanceInformation" = None) ∧
  (∀ strd,
     find ns ".//RmtInf//Strd" tx_detail = Some strd →
     (find ns ".//CdtrRefInf//Ref" strd = None →
      data !! "RemittanceInformation" = None) ∧
     (find ns ".//AddtlRmtInf" strd = None →
      data !! "AdditionalRemittanceInformation" = None)).
Proof.
  intros ns data. subst data. unfold _extract_transaction_details. fold ns.
  split.
  - intros Hstrd. rewrite Hstrd. split.
    + intros Hline. rewrite lookup_drop_None. dict_lookup. by rewrite Hline.
    + rewrite lookup_drop_None. by dict_lookup.
  - intros strd Hstrd. rewrite Hstrd. split.
    + intros Href. rewrite lookup_drop_None. dict_lookup. by rewrite Href.
    + intros Hadd. rewrite lookup_drop_None. dict_lookup. by rewrite Hadd.
Qed.

(** C1, as amended: in every record that [get_transactions] returns, the
    thirteen keys of the common record are all present, and an optional one
    whose source node is absent is bound to [None]; every other key is either
    absent or bound to a text, and a key that only a transaction-detail
    provides is absent when its source node is absent. The source node of
    [RemittanceInformation] is the creditor reference of the structured block
    when the detail has such a block and its first unstructured line
    otherwise; that of [AdditionalRemittanceInformation] is the free-text
    node of the structured block. So two records may have different key
    sets, but they differ on the keys of the details only. *)
Theorem transaction_keys (self : Camt053Parser) (transactions : list dict)
    (d : dict) :
  let ns := namespaces self in
  get_transactions self = Return transactions →
  d ∈ transactions →
  (∀ k, k ∈ common_keys → is_Some (d !! k)) ∧
  (∀ k, k ∉ common_keys → d !! k ≠ Some None) ∧
  ∃ stmts statement entry common_data,
    _find_statements_or_reports self = Return stmts ∧
    statement ∈ stmts ∧
    entry ∈ findall ns ".//Ntry" statement ∧
    _extract_common_entry_data self entry statement = Return common_data ∧
    (∀ k path, (k, path) ∈ optional_entry_sources →
               find ns path entry = None → d !! k = Some None) ∧
    (find ns ".//Acct//Id//IBAN" statement = None →
     d !! "AccountIBAN" = Some None) ∧
    (d = common_data ∧ (∀ k, k ∉ common_keys → d !! k = None) ∨
     ∃ ntry_detail tx_detail,
       ntry_detail ∈ findall ns ".//NtryDtls" entry ∧
       tx_detail ∈ findall ns ".//TxDtls" ntry_detail ∧
       d = dict_merge common_data
             (_extract_transaction_details self tx_detail) ∧
       (∀ k path, (k, path) ∈ detail_sources →
                  find ns path tx_detail = None → d !! k = None) ∧
       (find ns ".//RmtInf//Strd" tx_detail = None →
        (find ns ".//RmtInf//Ustrd" tx_detail = None →
         d !! "RemittanceInformation" = None) ∧
        d !! "AdditionalRemittanceInformation" = None) ∧
       (∀ strd,
          find ns ".//RmtInf//Strd" tx_detail = Some strd →
          (find ns ".//CdtrRefInf//Ref" strd = None →
           d !! "RemittanceInformation" = None) ∧
          (find ns ".//AddtlRmtInf" strd = None →
           d !! "AdditionalRemittanceInformation" = None))).
Proof.
  intros ns Htx Hd.
  apply get_transactions_Return in Htx
    as (stmts & rss & Hstmts & Hrss & ->).
  apply elem_of_concat in Hd as (rs & Hd & Hrs).
  apply list_elem_of_lookup in Hrs as [i Hi].
  destruct (Forall2_lookup_r _ _ _ _ _ Hrss Hi)
    as ([entry statement] & Hp & c & Hc & ->). simpl in *.
  apply list_elem_of_lookup_2 in Hp. unfold entries_of in Hp.
  apply elem_of_concat in Hp as (ps & Hp & Hps).
  apply list_elem_of_fmap in Hps as (statement' & -> & Hstatement).
  apply list_elem_of_fmap in Hp as (entry' & [= -> ->] & Hentry).
  destruct (common_entry_data_inv _ _ _ _ Hc)
    as (ref & amt & ind & booked & valued & _ & _ & _ & _ & _ & Hrec).
  apply entry_records_elem_located
    in Hd as [->|(ntry_detail & tx_detail & Hg & Htd & ->)].
  - (* the common record itself *)
    subst c. split; [intros k; apply common_record_key|].
    split; [intros k Hk; by rewrite common_record_other|].
    exists stmts, statement', entry',
      (common_record self entry' statement' ref amt ind booked valued).
    repeat split; try done.
    + intros k path Hin Hfind.
      by destruct (common_record_optional self entry' statement' ref amt ind
                     booked valued k path Hin Hfind).
    + apply common_record_AccountIBAN.
    + left. split; [reflexivity|]. intros k. apply common_record_other.
  - (* the common record merged with a transaction-detail *)
    subst c.
    assert (Honly : ∀ k, k ∉ common_keys →
              dict_merge
                (common_record self entry' statement' ref amt ind booked valued)
                (_extract_transaction_details self tx_detail) !! k =
              _extract_transaction_details self tx_detail !! k).
    { intros k Hk. rewrite dict_merge_lookup.
      destruct (_ !! k); [reflexivity | by apply common_record_other]. }
    split; [|split].
    + intros k Hk. rewrite dict_merge_lookup.
      destruct (_ !! k); [by eexists | by apply common_record_key].
    + intros k Hk. rewrite Honly by done. apply details_no_None.
    + exists stmts, statement', entry',
        (common_record self entry' statement' ref amt ind booked valued).
      split; [done|]. split; [done|]. split; [done|]. split; [done|].
      split; [|split].
      * intros k path Hin Hfind. rewrite dict_merge_lookup.
        destruct (common_record_optional self entry' statement' ref amt ind
                    booked valued k path Hin Hfind) as (Hk & Hkin & Hne).
        by rewrite details_common_key.
      * intros Hfind. rewrite dict_merge_lookup.
        rewrite details_common_key;
          [by apply common_record_AccountIBAN
          | by apply (bool_decide_unpack _) | discriminate].
      * right. exists ntry_detail, tx_detail.
        split; [exact Hg|]. split; [exact Htd|]. split; [reflexivity|].
        pose proof (details_remittance_absent self tx_detail) as Hrem.
        cbv zeta in Hrem. fold ns in Hrem. destruct Hrem as [Hnone Hsome].
        split; [|split].
        -- intros k path Hin Hfind. rewrite dict_merge_lookup.
           rewrite (details_source_absent self tx_detail k path Hin Hfind).
           apply common_record_other.
           unfold detail_sources in Hin.
           repeat (apply elem_of_cons in Hin as [[= -> ->]|Hin]);
             try (by apply elem_of_nil in Hin); by apply (bool_decide_unpack _).
        -- intros Hstrd. destruct (Hnone Hstrd) as [Hri Hadd].
           rewrite !Honly by (by apply (bool_decide_unpack _)). by split.
        -- intros strd Hstrd. destruct (Hsome strd Hstrd) as [Hri Hadd].
           rewrite !Honly by (by apply (bool_decide_unpack _)). by split.
Qed.

Lemma transaction_keys_witness :
  get_transactions Sample.parser_stmt =
    Return [dict_merge Sample.common
              (_extract_transaction_details Sample.parser_stmt Sample.tx_detail)] ∧
  is_Some (dict_merge Sample.common
             (_extract_transaction_details Sample.parser_stmt Sample.tx_detail)
           !! "TransactionID") ∧
  dict_merge Sample.common
    (_extract_transaction_details Sample.parser_stmt Sample.tx_detail)
    !! "RemittanceInformation" = None ∧
  dict_merge Sample.common
    (_extract_transaction_details Sample.parser_stmt Sample.tx_detail)
    !! "AdditionalRemittanceInformation" = None.
Proof.
  assert (Htx : get_transactions Sample.parser_stmt =
                Return [dict_merge Sample.common
                          (_extract_transaction_details Sample.parser_stmt
                             Sample.tx_detail)])
    by reflexivity.
  split; [exact Htx|].
  pose proof (transaction_keys Sample.parser_stmt _
                (dict_merge Sample.common
                   (_extract_transaction_details Sample.parser_stmt
                      Sample.tx_detail)) Htx) as H.
  cbv zeta in H.
  destruct H as (Hcommon & _ & stmts & statement & entry & c
                 & Hstmts & Hstatement & Hentry & _ & _ & _ & Hshape).
  - apply list_elem_of_singleton. reflexivity.
  - split; [apply Hcommon; by apply (bool_decide_unpack _)|].
    destruct Hshape
      as [[_ Hnone]|(g & tx & Hg & Htx' & _ & _ & Hplain & _)].
    + split; apply Hnone; by apply (bool_decide_unpack _).
    + assert (Hs : stmts = [Sample.statement])
        by (assert (H : _find_statements_or_reports Sample.parser_stmt =
                        Return [Sample.statement]) by reflexivity;
            congruence).
      rewrite Hs in Hstatement.
      apply list_elem_of_singleton in Hstatement. rewrite Hstatement in Hentry.
      change (findall (namespaces Sample.parser_stmt) ".//Ntry" Sample.statement)
        with [Sample.entry] in Hentry.
      apply list_elem_of_singleton in Hentry. rewrite Hentry in Hg.
      change (findall (namespaces Sample.parser_stmt) ".//NtryDtls" Sample.entry)
        with [Sample.node "NtryDtls" [Sample.tx_detail]] in Hg.
      apply list_elem_of_singleton in Hg. rewrite Hg in Htx'.
      change (findall (namespaces Sample.parser_stmt) ".//TxDtls"
                (Sample.node "NtryDtls" [Sample.tx_detail]))
        with [Sample.tx_detail] in Htx'.
      apply list_elem_of_singleton in Htx'. rewrite Htx' in Hplain.
      destruct Hplain as [Hri Hadd]; [reflexivity|].
      split; [apply Hri; reflexivity | exact Hadd].
Defined.

(** C1 as stated fails: the entry of this statement has no [RvslInd] node,
    and the record returned for it has the key [ReversalIndicator], bound to
    [None]. *)
Lemma absent_ReversalIndicator_is_None :
  find (namespaces Sample.parser_stmt) ".//RvslInd" Sample.entry = None ∧
  ∃ d, get_transactions Sample.parser_stmt = Return [d] ∧
       d !! "ReversalIndicator" = Some None.
Proof.
  split; [reflexivity|].
  eexists. split; reflexivity.
Qed.

(** C7, as amended: [get_group_header] returns an empty record when the tree
    has no header node; when there is one, and it has no [MsgId] or no
    [CreDtTm] below it, the call fails with the [AttributeError] of reading
    [.text] on [None], which is not a [Camt053ParseError]; with both, the
    record holds their texts. *)
Theorem group_header (self : Camt053Parser) :
  let ns := namespaces self in
  (find ns ".//GrpHdr" (tree self) = None →
   get_group_header self = Return ∅) ∧
  (∀ grp_hdr,
     find ns ".//GrpHdr" (tree self) = Some grp_hdr →
     find ns ".//MsgId" grp_hdr = None ∨ find ns ".//CreDtTm" grp_hdr = None →
     get_group_header self =
       Raise (AttributeError "'NoneType' object has no attribute 'text'")) ∧
  (∀ grp_hdr msg_id cre_dt_tm,
     find ns ".//GrpHdr" (tree self) = Some grp_hdr →
     find ns ".//MsgId" grp_hdr = Some msg_id →
     find ns ".//CreDtTm" grp_hdr = Some cre_dt_tm →
     get_group_header self =
       Return (dict_of [("MessageID", text msg_id);
                        ("CreationDateTime", text cre_dt_tm)])).
Proof.
  intros ns. unfold get_group_header, _extract_group_header. fold ns.
  split; [|split].
  - by intros ->.
  - intros grp_hdr -> Hmissing.
    destruct (find ns ".//MsgId" grp_hdr); [|reflexivity].
    destruct (find ns ".//CreDtTm" grp_hdr); [|reflexivity].
    by destruct Hmissing.
  - by intros grp_hdr msg_id cre_dt_tm -> -> ->.
Qed.

Lemma group_header_witness :
  get_group_header (Sample.parser_of [Sample.statement]) = Return ∅ ∧
  get_group_header Sample.parser_no_msg_id =
    Raise (AttributeError "'NoneType' object has no attribute 'text'").
Proof.
  split.
  - apply (group_header (Sample.parser_of [Sample.statement])).
    reflexivity.
  - apply (proj1 (proj2 (group_header Sample.parser_no_msg_id))
             Sample.grp_hdr_no_msg_id).
    + reflexivity.
    + left. reflexivity.
Defined.

(** C7 as stated fails: this header has no [MsgId], and [get_group_header]
    ends with an [AttributeError], not with the parse error of the parser. *)
Lemma missing_MsgId_is_AttributeError :
  find (namespaces Sample.parser_no_msg_id) ".//GrpHdr"
    (tree Sample.parser_no_msg_id) = Some Sample.grp_hdr_no_msg_id ∧
  find (namespaces Sample.parser_no_msg_id) ".//MsgId"
    Sample.grp_hdr_no_msg_id = None ∧
  get_group_header Sample.parser_no_msg_id =
    Raise (AttributeError "'NoneType' object has no attribute 'text'") ∧
  ∀ msg, get_group_header Sample.parser_no_msg_id ≠
         Raise (Camt053ParseError msg).
Proof.
  assert (H : get_group_header Sample.parser_no_msg_id =
              Raise (AttributeError "'NoneType' object has no attribute 'text'"))
    by reflexivity.
  repeat split; try (reflexivity).
  intros msg. rewrite H. discriminate.
Qed.

(** C8: the container locator returns the statement nodes when there are
    some; it looks for report nodes only when there is no statement node, and
    returns them when there are some; with neither, it raises
    [Camt053ParseError], and so do [get_statement_info] and
    [get_transactions]. *)
Theorem container_locator (self : Camt053Parser) :
  let ns := namespaces self in
  let neither := Camt053ParseError "Neither 'Stmt' nor 'Rpt' element found" in
  (findall ns ".//Stmt" (tree self) ≠ [] →
   _find_statements_or_reports self =
     Return (findall ns ".//Stmt" (tree self))) ∧
  (findall ns ".//Stmt" (tree self) = [] →
   findall ns ".//Rpt" (tree self) ≠ [] →
   _find_statements_or_reports self =
     Return (findall ns ".//Rpt" (tree self))) ∧
  (findall ns ".//Stmt" (tree self) = [] →
   findall ns ".//Rpt" (tree self) = [] →
   _find_statements_or_reports self = Raise neither ∧
   get_statement_info self = Raise neither ∧
   get_transactions self = Raise neither).
Proof.
  intros ns neither.
  unfold get_statement_info, get_transactions, _find_statements_or_reports.
  fold ns. split; [|split].
  - by destruct (findall ns ".//Stmt" (tree self)).
  - intros ->. by destruct (findall ns ".//Rpt" (tree self)).
  - by intros -> ->.
Qed.

Lemma container_locator_witness :
  findall (namespaces Sample.parser_no_container) ".//Stmt"
    (tree Sample.parser_no_container) = [] ∧
  findall (namespaces Sample.parser_no_container) ".//Rpt"
    (tree Sample.parser_no_container) = [] ∧
  get_transactions Sample.parser_no_container =
    Raise (Camt053ParseError "Neither 'Stmt' nor 'Rpt' element found") ∧
  _find_statements_or_reports Sample.parser_stmt = Return [Sample.statement].
Proof.
  split; [reflexivity|]. split; [reflexivity|]. split.
  - apply (proj2 (proj2 (container_locator Sample.parser_no_container)));
      reflexivity.
  - etransitivity.
    + apply (proj1 (container_locator Sample.parser_stmt)).
      vm_compute. discriminate.
    + reflexivity.
Defined.

(** ** Statement summaries *)

Lemma get_statement_info_closed (self : Camt053Parser) :
  get_statement_info self =
  stmts ← _find_statements_or_reports self;
  mret (map (statement_summary self) stmts).
Proof.
  unfold get_statement_info.
  destruct (_find_statements_or_reports self) as [stmts|e]; [|reflexivity].
  simpl. f_equal.
  rewrite (fold_left_append (λ stmt, [statement_summary self stmt])). simpl.
  induction stmts as [|stmt stmts IH]; [reflexivity|]. simpl. by rewrite IH.
Qed.

(** C2, as amended: a balance node whose indicator is DBIT and whose amount
    text [t] is not empty stores, under the key of its type (OPBD or CLBD),
    [str(-float(t))] when [float] accepts [t], and [t] itself when it does
    not, in which case nothing is raised; the summary of a statement holds
    what its last balance node of that type stored. The text of the float is
    not the text of the amount with a sign in front: "100.00" becomes
    "-100.0"; "abc" stays "abc". *)
Theorem debit_balance_negated (self : Camt053Parser) (balance : Element)
    (t : string) :
  let ns := namespaces self in
  let balance_type := text_or_None (find ns ".//Tp//CdOrPrtry//Cd" balance) in
  text_or_None (find ns ".//Amt" balance) = Some t →
  t ≠ "" →
  text_or_None (find ns ".//CdtDbtInd" balance) = Some "DBIT" →
  (∀ result,
     (balance_type = Some "OPBD" →
      read_balance self result balance !! "OpeningBalance" =
        Some (Some (negate_amount t))) ∧
     (balance_type = Some "CLBD" →
      read_balance self result balance !! "ClosingBalance" =
        Some (Some (negate_amount t)))) ∧
  (∀ stmt balances,
     findall ns ".//Bal" stmt = balances ++ [balance] →
     (balance_type = Some "OPBD" →
      statement_summary self stmt !! "OpeningBalance" =
        Some (Some (negate_amount t))) ∧
     (balance_type = Some "CLBD" →
      statement_summary self stmt !! "ClosingBalance" =
        Some (Some (negate_amount t)))) ∧
  negate_amount t =
    match PyFloat.float_of_string t with
    | Some x => PyFloat.str (PyFloat.neg x)
    | None => t
    end ∧
  negate_amount "100.00" = "-100.0" ∧
  negate_amount "abc" = "abc" ∧
  (∀ stmts, _find_statements_or_reports self = Return stmts →
            get_statement_info self =
              Return (map (statement_summary self) stmts)).
Proof.
  intros ns balance_type Hamt Ht Hind.
  assert (Htruthy : truthy (Some t) = true) by (by destruct t).
  assert (Hread : ∀ result,
            (balance_type = Some "OPBD" →
             read_balance self result balance !! "OpeningBalance" =
               Some (Some (negate_amount t))) ∧
            (balance_type = Some "CLBD" →
             read_balance self result balance !! "ClosingBalance" =
               Some (Some (negate_amount t)))).
  { intros result. unfold read_balance. fold ns. fold balance_type.
    rewrite Hamt, Hind, Htruthy. simpl.
    split; intros ->; simpl.
    - by rewrite lookup_insert_ne, lookup_insert_eq by discriminate.
    - by rewrite lookup_insert_ne, lookup_insert_eq by discriminate. }
  split; [exact Hread|]. split.
  - intros stmt balances Hbal. unfold statement_summary. fold ns.
    rewrite Hbal, fold_left_app. apply Hread.
  - split; [reflexivity|].
    split; [reflexivity|]. split; [reflexivity|].
    intros stmts Hstmts. by rewrite get_statement_info_closed, Hstmts.
Qed.

Lemma debit_balance_negated_witness :
  get_statement_info (Sample.parser_debit "100.00") =
    Return [statement_summary (Sample.parser_debit "100.00")
              (Sample.node "Stmt" [Sample.acct; Sample.debit_balance "100.00"])] ∧
  statement_summary (Sample.parser_debit "100.00")
    (Sample.node "Stmt" [Sample.acct; Sample.debit_balance "100.00"])
    !! "ClosingBalance" = Some (Some "-100.0").
Proof.
  pose proof (debit_balance_negated (Sample.parser_debit "100.00")
                (Sample.debit_balance "100.00") "100.00") as H.
  cbv zeta in H.
  destruct H as (_ & Hsum & _ & Hneg & _ & Hinfo);
    [reflexivity | discriminate | reflexivity |].
  split.
  - apply (Hinfo [Sample.node "Stmt"
                    [Sample.acct; Sample.debit_balance "100.00"]]).
    reflexivity.
  - destruct (Hsum (Sample.node "Stmt"
                      [Sample.acct; Sample.debit_balance "100.00"]) [])
      as [_ Hcl]; [reflexivity|].
    rewrite Hcl; [by rewrite Hneg | reflexivity].
Defined.

(** C2 as stated fails: the closing balance of this statement is in debit,
    its amount text is "100.00", and the summary holds "-100.0", not
    "-100.00". *)
Lemma debit_balance_text_not_kept :
  text_or_None (find (namespaces (Sample.parser_debit "100.00")) ".//Amt"
                  (Sample.debit_balance "100.00")) = Some "100.00" ∧
  text_or_None (find (namespaces (Sample.parser_debit "100.00")) ".//CdtDbtInd"
                  (Sample.debit_balance "100.00")) = Some "DBIT" ∧
  ∃ summary,
    get_statement_info (Sample.parser_debit "100.00") = Return [summary] ∧
    summary !! "ClosingBalance" = Some (Some "-100.0") ∧
    summary !! "ClosingBalance" ≠ Some (Some "-100.00").
Proof.
  split; [reflexivity|]. split; [reflexivity|].
  eexists. split; [reflexivity|].
  split; [reflexivity|].
  vm_compute. discriminate.
Qed.

(** ** Version detection *)

Lemma prefix_app (s1 s2 : string) :
  String.prefix s1 s2 = true ↔ ∃ rest, s2 = s1 +:+ rest.
Proof.
  revert s1. induction s2 as [|c2 s2 IH]; intros [|c1 s1]; simpl.
  - split; [by exists "" | done].
  - split; [done | by intros [rest [=]]].
  - split; [by eexists | done].
  - destruct (ascii_dec c1 c2) as [->|Hne].
    + rewrite IH. split; intros [rest H]; exists rest; [by rewrite H | by injection H].
    + split; [done|]. intros [rest [= ? ?]]. by destruct Hne.
Qed.

(** [contains] is the substring test. *)
Lemma contains_app (needle hay : string) :
  contains needle hay = true ↔ ∃ before after, hay = before +:+ needle +:+ after.
Proof.
  induction hay as [|c hay IH].
  - change (contains needle "") with (String.prefix needle "" || false).
    rewrite orb_false_r, prefix_app. split.
    + intros [rest H]. by exists "", rest.
    + intros ([|c before] & after & H); [by exists after | discriminate].
  - change (contains needle (String c hay))
      with (String.prefix needle (String c hay) || contains needle hay).
    rewrite orb_true_iff, prefix_app, IH. split.
    + intros [[rest H]|(before & after & H)].
      * by exists "", rest.
      * exists (String c before), after. by rewrite H.
    + intros ([|c' before] & after & H).
      * left. by exists after.
      * right. injection H as -> H. by exists before, after.
Qed.

Lemma first_version_in_spec (versions : list string) (root_tag v : string) :
  first_version_in versions root_tag = v ↔
  (∃ before after, versions = before ++ v :: after ∧
     contains v root_tag = true ∧
     Forall (λ w, contains w root_tag = false) before) ∨
  (v = "unknown" ∧ Forall (λ w, contains w root_tag = false) versions).
Proof.
  induction versions as [|w versions IH]; simpl.
  - split.
    + intros <-. right. by split.
    + intros [(before & after & H & _)|[-> _]]; [by destruct before | done].
  - destruct (contains w root_tag) eqn:Hw.
    + split.
      * intros <-. left. exists [], versions. by repeat split.
      * intros [(before & after & H & Hv & Hbefore)|[_ Hall]].
        -- destruct before as [|w' before]; [by injection H|].
           injection H as <- _. apply Forall_cons in Hbefore as [Hw' _].
           congruence.
        -- apply Forall_cons in Hall as [Hw' _]. congruence.
    + rewrite IH. split.
      * intros [(before & after & -> & Hv & Hbefore)|[-> Hall]].
        -- left. exists (w :: before), after. repeat split; [done|].
           by apply Forall_cons.
        -- right. split; [done|]. by apply Forall_cons.
      * intros [(before & after & H & Hv & Hbefore)|[-> Hall]].
        -- destruct before as [|w' before]; [injection H as -> _; congruence|].
           injection H as <- ->. apply Forall_cons in Hbefore as [_ Hbefore].
           left. by exists before, after.
        -- right. split; [done|]. by apply Forall_cons in Hall as [_ Hall].
Qed.

(** X1: the detected version is "unknown" exactly when the tag of the root
    contains none of the five known version names; otherwise it is the first
    of the five, in the order of the list, that occurs somewhere in the tag.
    The result is always one of these six strings. *)
Theorem detect_version_first_known (self : Camt053Parser) :
  let root_tag := tag (tree self) in
  let occurs := λ v, ∃ before after, root_tag = before +:+ v +:+ after in
  (_detect_version self = "unknown" ↔ ∀ v, v ∈ known_versions → ¬ occurs v) ∧
  (∀ v, v ∈ known_versions →
     (_detect_version self = v ↔
      occurs v ∧
      ∃ earlier later, known_versions = earlier ++ v :: later ∧
                       ∀ w, w ∈ earlier → ¬ occurs w)) ∧
  _detect_version self ∈ known_versions ++ ["unknown"].
Proof.
  intros root_tag occurs.
  assert (Hocc : ∀ v, contains v root_tag = true ↔ occurs v)
    by (intros v; apply contains_app).
  assert (Hnot : ∀ l, Forall (λ w, contains w root_tag = false) l ↔
                      ∀ w, w ∈ l → ¬ occurs w).
  { intros l. rewrite Forall_forall. split; intros H w Hw.
    - rewrite <- Hocc. by rewrite (H w Hw).
    - apply not_true_is_false. rewrite Hocc. by apply H. }
  assert (Hunknown : "unknown" ∉ known_versions)
    by (by apply (bool_decide_unpack _)).
  assert (Hnodup : NoDup known_versions) by (by apply (bool_decide_unpack _)).
  unfold _detect_version. fold root_tag. split; [|split].
  - rewrite first_version_in_spec. split.
    + intros [(before & after & H & _)|[_ Hall]]; [|by apply Hnot].
      destruct Hunknown. rewrite H. apply elem_of_app. right. by left.
    + intros H. right. split; [done|]. by apply Hnot.
  - intros v Hv. rewrite first_version_in_spec. split.
    + intros [(before & after & H & Hin & Hbefore)|[-> _]]; [|done].
      split; [by apply Hocc|]. exists before, after. split; [done|].
      by apply Hnot.
    + intros (Hin & earlier & later & H & Hearlier). left.
      exists earlier, later. split; [done|]. split; [by apply Hocc|].
      by apply Hnot.
  - destruct (first_version_in known_versions root_tag) as [|c r] eqn:Hv;
      apply first_version_in_spec in Hv
        as [(before & after & H & _)|[Hu _]]; try discriminate.
    + apply elem_of_app. left. rewrite H. apply elem_of_app. right. by left.
    + apply elem_of_app. left. rewrite H. apply elem_of_app. right. by left.
    + rewrite Hu. apply elem_of_app. right. by left.
Qed.

Lemma detect_version_first_known_witness :
  "camt.053.001.08" ∈ known_versions ∧
  _detect_version Fixture.parser_rpt = "camt.053.001.08".
Proof.
  assert (Hin : "camt.053.001.08" ∈ known_versions)
    by (by apply (bool_decide_unpack _)).
  split; [exact Hin|].
  apply (proj1 (proj2 (detect_version_first_known Fixture.parser_rpt)) _ Hin).
  split.
  - by exists "{urn:iso:std:iso:20022:tech:xsd:", "}Document".
  - exists ["camt.053.001.02"; "camt.053.001.03"; "camt.053.001.04"],
           ["camt.053.001.12"].
    split; [reflexivity|]. intros w Hw (before & after & H).
    assert (Hc : contains w (tag (tree Fixture.parser_rpt)) = true)
      by (apply contains_app; by exists before, after).
    repeat (apply elem_of_cons in Hw as [->|Hw]); try discriminate Hc.
    by apply elem_of_nil in Hw.
Defined.

(** ** Records merged from an entry and a transaction-detail *)

Lemma details_Amount (self : Camt053Parser) (tx_detail : Element) :
  _extract_transaction_details self tx_detail !! "Amount" =
  Some <$> text_or_None (find (namespaces self) ".//Amt" tx_detail).
Proof.
  unfold _extract_transaction_details. rewrite lookup_drop_None.
  destruct (find _ ".//RmtInf//Strd" tx_detail); dict_lookup;
    by destruct (text_or_None _).
Qed.

Lemma details_other_key (self : Camt053Parser) (tx_detail : Element)
    (k : string) :
  k ∉ detail_keys → _extract_transaction_details self tx_detail !! k = None.
Proof.
  intros Hk. unfold _extract_transaction_details. rewrite lookup_drop_None.
  assert (Hne : ∀ k', k' ∈ detail_keys → k' ≠ k) by (by intros k' Hk' ->).
  assert (Hdata : ∀ items : list (string * option string),
            Forall (λ kv, kv.1 ∈ detail_keys) items →
            dict_of items !! k = None).
  { intros items Hitems. rewrite dict_of_lookup. unfold last_item.
    induction Hitems as [|[k' v] items Hk' _ IH]; [reflexivity|].
    simpl in *. destruct (String.eqb_spec k' k) as [->|_]; [done|].
    exact IH. }
  destruct (find _ ".//RmtInf//Strd" tx_detail).
  - rewrite !lookup_insert_ne, Hdata;
      [done | | |]; try (apply Hne; by apply (bool_decide_unpack _)).
    repeat constructor; by apply (bool_decide_unpack _).
  - rewrite Hdata; [done|].
    repeat constructor; by apply (bool_decide_unpack _).
Qed.

(** X2: a record merged from the common record of an entry and a
    transaction-detail takes every field of the common record as it is,
    except [Amount], which is the text of the first amount node of the detail
    when it has one with text and the amount of the entry otherwise; all its
    other keys are those of the detail. *)
Theorem merged_record_fields (self : Camt053Parser)
    (entry statement tx_detail : Element) (common_data : dict) :
  _extract_common_entry_data self entry statement = Return common_data →
  let d := dict_merge common_data
             (_extract_transaction_details self tx_detail) in
  (∀ k, k ∈ common_keys → k ≠ "Amount" → d !! k = common_data !! k) ∧
  d !! "Amount" =
    match text_or_None (find (namespaces self) ".//Amt" tx_detail) with
    | Some amount => Some (Some amount)
    | None => common_data !! "Amount"
    end ∧
  (∀ k, k ∉ common_keys →
        d !! k = _extract_transaction_details self tx_detail !! k).
Proof.
  intros Hc d. subst d. split; [|split].
  - intros k Hk Hne. rewrite dict_merge_lookup.
    by rewrite details_common_key.
  - rewrite dict_merge_lookup, details_Amount.
    by destruct (text_or_None _).
  - intros k Hk. rewrite dict_merge_lookup.
    destruct (_ !! k); [reflexivity|].
    apply common_entry_data_inv in Hc
      as (ref & amt & ind & booked & valued & _ & _ & _ & _ & _ & ->).
    by apply common_record_other.
Qed.

Lemma merged_record_fields_witness :
  _extract_common_entry_data Sample.parser_stmt Sample.entry Sample.statement =
    Return Sample.common ∧
  dict_merge Sample.common
    (_extract_transaction_details Sample.parser_stmt Sample.tx_detail)
    !! "Amount" = Some (Some "499.00") ∧
  Sample.common !! "Amount" = Some (Some "500.00").
Proof.
  assert (Hc : _extract_common_entry_data Sample.parser_stmt Sample.entry
                 Sample.statement = Return Sample.common) by reflexivity.
  split; [exact Hc|]. split; [|reflexivity].
  pose proof (merged_record_fields _ _ _ Sample.tx_detail _ Hc) as H.
  cbv zeta in H. destruct H as (_ & H & _). rewrite H. reflexivity.
Defined.

(** X3: every key of every record that [get_transactions] returns is one of
    the thirteen keys of the common record or one of the eleven keys of the
    details. *)
Theorem transaction_key_names (self : Camt053Parser) (transactions : list dict)
    (d : dict) (k : string) :
  get_transactions self = Return transactions →
  d ∈ transactions →
  is_Some (d !! k) →
  k ∈ common_keys ++ detail_keys.
Proof.
  intros Htx Hd Hk.
  apply get_transactions_Return in Htx as (stmts & rss & _ & Hrss & ->).
  apply elem_of_concat in Hd as (rs & Hd & Hrs).
  apply list_elem_of_lookup in Hrs as [i Hi].
  destruct (Forall2_lookup_r _ _ _ _ _ Hrss Hi)
    as ([entry statement] & _ & c & Hc & ->). cbn [fst snd] in *.
  apply common_entry_data_inv in Hc
    as (ref & amt & ind & booked & valued & _ & _ & _ & _ & _ & ->).
  apply elem_of_app.
  destruct (decide (k ∈ common_keys)) as [|Hcommon]; [by left|right].
  destruct (decide (k ∈ detail_keys)) as [|Hdetail]; [done|exfalso].
  apply entry_records_elem in Hd as [->|[tx_detail ->]].
  - rewrite common_record_other in Hk by done. by destruct Hk.
  - rewrite dict_merge_lookup, details_other_key, common_record_other in Hk
      by done.
    by destruct Hk.
Qed.

Lemma transaction_key_names_witness :
  "EndToEndId" ∈ common_keys ++ detail_keys.
Proof.
  apply (transaction_key_names Sample.parser_stmt
           [dict_merge Sample.common
              (_extract_transaction_details Sample.parser_stmt Sample.tx_detail)]
           (dict_merge Sample.common
              (_extract_transaction_details Sample.parser_stmt Sample.tx_detail))).
  - reflexivity.
  - apply list_elem_of_singleton. reflexivity.
  - exists (Some "ENDTOENDID123"). reflexivity.
Defined.

(** ** How [get_transactions] ends *)

Lemma traverse_Raise_inv {A B : Type} (f : A → result B) (l : list A)
    (e : exception) :
  traverse f l = Raise e → ∃ x, x ∈ l ∧ f x = Raise e.
Proof.
  induction l as [|x l IH]; simpl; [discriminate|].
  destruct (f x) as [y|e'] eqn:Hx.
  - simpl. destruct (traverse f l) as [ys|e'']; [discriminate|].
    simpl. intros [= ->]. destruct IH as (z & Hz & Hfz); [reflexivity|].
    exists z. split; [by right | exact Hfz].
  - simpl. intros [= ->]. exists x. split; [by left | exact Hx].
Qed.

Lemma complete_entry_finds (self : Camt053Parser) (entry : Element) :
  complete_entry self entry ↔
  ¬ (find (namespaces self) ".//AcctSvcrRef" entry = None ∨
     find (namespaces self) ".//Amt" entry = None ∨
     find (namespaces self) ".//CdtDbtInd" entry = None ∨
     find (namespaces self) ".//BookgDt//*" entry = None ∨
     find (namespaces self) ".//ValDt//*" entry = None).
Proof.
  unfold complete_entry, required_paths.
  rewrite !Forall_cons, Forall_nil.
  destruct (find _ ".//AcctSvcrRef" entry), (find _ ".//Amt" entry),
    (find _ ".//CdtDbtInd" entry), (find _ ".//BookgDt//*" entry),
    (find _ ".//ValDt//*" entry);
    split; try (intros H; exfalso; apply H; auto 6; fail);
    try (intros (H1 & H2 & H3 & H4 & H5 & _);
         first [by destruct H1 | by destruct H2 | by destruct H3
               | by destruct H4 | by destruct H5]).
  - intros _ [H|[H|[H|[H|H]]]]; discriminate.
  - intros _. by repeat split.
Qed.

Lemma extract_transaction_complete (self : Camt053Parser)
    (entry statement : Element) :
  (complete_entry self entry →
   ∃ c, _extract_common_entry_data self entry statement = Return c ∧
        _extract_transaction self entry statement =
          Return (entry_records self c entry)) ∧
  (¬ complete_entry self entry →
   _extract_transaction self entry statement = Raise no_text).
Proof.
  rewrite complete_entry_finds. split.
  - intros Hcomplete.
    destruct (extract_transaction_cases self entry statement) as [H|H];
      [|exact H].
    destruct (common_entry_data_cases self entry statement)
      as [Hc|(ref & amt & ind & booked & valued
              & H1 & H2 & H3 & H4 & H5 & Hc)].
    + exfalso. apply Hcomplete.
      unfold _extract_common_entry_data in Hc.
      destruct (find _ ".//AcctSvcrRef" entry); [|by left].
      destruct (find _ ".//Amt" entry); [|by right; left].
      destruct (find _ ".//CdtDbtInd" entry); [|by right; right; left].
      destruct (find _ ".//BookgDt//*" entry); [|by right; right; right; left].
      destruct (find _ ".//ValDt//*" entry); [|by right; right; right; right].
      discriminate Hc.
    + rewrite extract_transaction_closed, Hc in H. discriminate H.
  - intros Hmissing. rewrite extract_transaction_closed.
    rewrite common_entry_data_missing; [reflexivity|].
    destruct (find _ ".//AcctSvcrRef" entry); [|by left].
    destruct (find _ ".//Amt" entry); [|by right; left].
    destruct (find _ ".//CdtDbtInd" entry); [|by right; right; left].
    destruct (find _ ".//BookgDt//*" entry); [|by right; right; right; left].
    destruct (find _ ".//ValDt//*" entry); [|by right; right; right; right].
    exfalso. apply Hmissing. intros [H|[H|[H|[H|H]]]]; discriminate.
Qed.

(** X4: the three ways [get_transactions] can end. It returns a list exactly
    when a container is found and every entry of the containers has its five
    required nodes; it raises the [AttributeError] of [None.text] exactly
    when a container is found and some entry lacks one of them; it raises
    [Camt053ParseError] exactly when the tree has neither a statement nor a
    report. It raises nothing else. *)
Theorem get_transactions_outcome (self : Camt053Parser) :
  let ns := namespaces self in
  ((∃ transactions, get_transactions self = Return transactions) ↔
   ∃ stmts, _find_statements_or_reports self = Return stmts ∧
            ∀ p, p ∈ entries_of self stmts → complete_entry self p.1) ∧
  (get_transactions self = Raise no_text ↔
   ∃ stmts, _find_statements_or_reports self = Return stmts ∧
            ∃ p, p ∈ entries_of self stmts ∧ ¬ complete_entry self p.1) ∧
  (get_transactions self = Raise no_container ↔
   findall ns ".//Stmt" (tree self) = [] ∧
   findall ns ".//Rpt" (tree self) = []) ∧
  (∀ e, get_transactions self = Raise e → e = no_container ∨ e = no_text).
Proof.
  intros ns.
  assert (Hfind : (∃ stmts, _find_statements_or_reports self = Return stmts) ∨
                  _find_statements_or_reports self = Raise no_container ∧
                  findall ns ".//Stmt" (tree self) = [] ∧
                  findall ns ".//Rpt" (tree self) = []).
  { unfold _find_statements_or_reports. fold ns.
    destruct (findall ns ".//Stmt" (tree self)); [|left; by eexists].
    destruct (findall ns ".//Rpt" (tree self)); [by right | left; by eexists]. }
  assert (Hfound : ∀ stmts,
            _find_statements_or_reports self = Return stmts →
            ¬ (findall ns ".//Stmt" (tree self) = [] ∧
               findall ns ".//Rpt" (tree self) = [])).
  { intros stmts Hs [H1 H2]. unfold _find_statements_or_reports in Hs.
    fold ns in Hs. by rewrite H1, H2 in Hs. }
  rewrite get_transactions_closed.
  destruct Hfind as [[stmts Hstmts]|(Hnone & HS & HR)].
  - rewrite Hstmts. simpl.
    set (f := λ p : Element * Element, _extract_transaction self p.1 p.2).
    destruct (decide (Forall (λ p : Element * Element, complete_entry self p.1)
                             (entries_of self stmts))) as [Hall|Hsome].
    + (* every entry is complete *)
      assert (Hret : ∃ rss, traverse f (entries_of self stmts) = Return rss).
      { induction Hall as [|[entry statement] l Hp _ IH]; [by eexists|].
        simpl. subst f. simpl.
        destruct (proj1 (extract_transaction_complete self entry statement) Hp)
          as (c & _ & ->).
        destruct IH as [rss ->]. by eexists. }
      destruct Hret as [rss Hrss]. rewrite Hrss. simpl.
      rewrite Forall_forall in Hall.
      split; [|split; [|split]].
      * split; [intros _; by exists stmts | intros _; by eexists].
      * split; [discriminate|].
        intros (stmts' & [= <-] & p & Hp & Hbad). by destruct Hbad; apply Hall.
      * split; [discriminate | intros H; by destruct (Hfound stmts Hstmts)].
      * discriminate.
    + (* some entry is not complete *)
      apply not_Forall_Exists in Hsome; [|intros p; apply _].
      apply Exists_exists in Hsome as ([entry statement] & Hp & Hbad).
      assert (Hraise : traverse f (entries_of self stmts) = Raise no_text).
      { apply (traverse_Raise f _ no_text (entry, statement)); [done| |].
        - subst f. simpl.
          by apply (proj2 (extract_transaction_complete self entry statement)).
        - intros [entry' statement'] _. subst f. simpl.
          destruct (extract_transaction_cases self entry' statement')
            as [H|(c & _ & H)]; [by left | right; by eexists]. }
      rewrite Hraise. simpl.
      split; [|split; [|split]].
      * split; [by intros [? ?]|].
        intros (stmts' & [= <-] & Hall). destruct Hbad.
        by apply (Hall (entry, statement)).
      * split; [|done]. intros _. exists stmts. split; [done|].
        by exists (entry, statement).
      * split; [discriminate | intros H; by destruct (Hfound stmts Hstmts)].
      * intros e [= <-]. by right.
  - rewrite Hnone. simpl. split; [|split; [|split]].
    + split; [by intros [? ?] | by intros (stmts & ? & _)].
    + split; [discriminate | by intros (stmts & ? & _)].
    + done.
    + intros e [= <-]. by left.
Qed.

Lemma get_transactions_outcome_witness :
  (∃ transactions, get_transactions Fixture.parser_batch = Return transactions) ∧
  get_transactions Sample.parser_no_ref = Raise no_text ∧
  get_transactions Sample.parser_no_container = Raise no_container.
Proof.
  split; [|split].
  - apply (proj1 (get_transactions_outcome Fixture.parser_batch)).
    exists [Fixture.batch_statement]. split; [reflexivity|].
    change (entries_of Fixture.parser_batch [Fixture.batch_statement])
      with [(Sample.entry, Fixture.batch_statement);
            (Fixture.batch_entry, Fixture.batch_statement)].
    intros p Hp.
    repeat (apply elem_of_cons in Hp as [->|Hp]);
      [| | by apply elem_of_nil in Hp];
      by apply (bool_decide_unpack _).
  - apply (proj1 (proj2 (get_transactions_outcome Sample.parser_no_ref))).
    exists [Sample.node "Stmt" [Sample.acct; Sample.entry_no_ref]].
    split; [reflexivity|].
    exists (Sample.entry_no_ref,
            Sample.node "Stmt" [Sample.acct; Sample.entry_no_ref]).
    split; [apply list_elem_of_singleton; reflexivity|].
    by apply (bool_decide_unpack _).
  - apply (proj1 (proj2 (proj2
             (get_transactions_outcome Sample.parser_no_container)))).
    split; reflexivity.
Defined.

(** ** Counting records *)

Lemma entry_records_length (self : Camt053Parser) (c : dict) (entry : Element) :
  length (entry_records self c entry) = record_count self entry.
Proof.
  unfold entry_records, record_count.
  destruct (findall _ ".//NtryDtls" entry) as [|g gs]; [reflexivity|].
  generalize (g :: gs). intros l.
  induction l as [|g' l IH]; [reflexivity|].
  cbn [map concat sum_list sum_list_with]. rewrite length_app, IH. f_equal.
  unfold grouping_records.
  destruct (findall _ ".//TxDtls" g') as [|t ts]; [reflexivity|].
  rewrite length_map. simpl. lia.
Qed.

Lemma record_count_positive (self : Camt053Parser) (entry : Element) :
  (1 ≤ record_count self entry)%nat.
Proof.
  unfold record_count.
  destruct (findall _ ".//NtryDtls" entry) as [|g gs]; [done|].
  cbn [map sum_list_with]. unfold id. lia.
Qed.

(** X5: no entry is lost and none is invented. When [get_transactions]
    returns, the number of records is the sum, over the entries of the
    containers, of the number of records of each entry, which is at least
    one: there are at least as many records as entries, and none when the
    containers have no entry. *)
Theorem no_entry_lost (self : Camt053Parser) (transactions : list dict) :
  get_transactions self = Return transactions →
  ∃ stmts,
    _find_statements_or_reports self = Return stmts ∧
    length transactions =
      sum_list (map (λ p : Element * Element, record_count self p.1)
                    (entries_of self stmts)) ∧
    (length (entries_of self stmts) ≤ length transactions)%nat ∧
    (entries_of self stmts = [] → transactions = []).
Proof.
  intros Htx.
  apply get_transactions_Return in Htx as (stmts & rss & Hstmts & Hrss & ->).
  exists stmts. split; [exact Hstmts|].
  assert (Hsum : length (concat rss) =
                 sum_list (map (λ p : Element * Element, record_count self p.1)
                               (entries_of self stmts))).
  { induction Hrss as [|p rs ps rss (c & _ & ->) _ IH]; [reflexivity|].
    cbn [map concat sum_list sum_list_with].
    by rewrite length_app, IH, entry_records_length. }
  split; [exact Hsum|]. split.
  - rewrite Hsum. clear.
    induction (entries_of self stmts) as [|p ps IH]; [done|].
    cbn [map sum_list_with length]. unfold id in *.
    pose proof (record_count_positive self p.1). lia.
  - intros Hnil. rewrite Hnil in Hrss. by inversion Hrss.
Qed.

Lemma no_entry_lost_witness :
  get_transactions Fixture.parser_batch =
    Return (entry_records Fixture.parser_batch Sample.common Sample.entry ++
            entry_records Fixture.parser_batch
              (common_record Fixture.parser_batch Fixture.batch_entry
                 Fixture.batch_statement
                 (Sample.leaf "AcctSvcrRef" "456") (Sample.amt "500.00")
                 (Sample.leaf "CdtDbtInd" "CRDT")
                 (Sample.leaf "Dt" "2020-06-23") (Sample.leaf "Dt" "2020-06-23"))
              Fixture.batch_entry) ∧
  ∃ transactions,
    get_transactions Fixture.parser_batch = Return transactions ∧
    length transactions = 4%nat.
Proof.
  assert (Htx : get_transactions Fixture.parser_batch =
    Return (entry_records Fixture.parser_batch Sample.common Sample.entry ++
            entry_records Fixture.parser_batch
              (common_record Fixture.parser_batch Fixture.batch_entry
                 Fixture.batch_statement
                 (Sample.leaf "AcctSvcrRef" "456") (Sample.amt "500.00")
                 (Sample.leaf "CdtDbtInd" "CRDT")
                 (Sample.leaf "Dt" "2020-06-23") (Sample.leaf "Dt" "2020-06-23"))
              Fixture.batch_entry)) by reflexivity.
  split; [exact Htx|].
  destruct (no_entry_lost _ _ Htx) as (stmts & Hstmts & Hlen & _).
  eexists. split; [exact Htx|].
  rewrite Hlen.
  assert (Hs : stmts = [Fixture.batch_statement])
    by (assert (H : _find_statements_or_reports Fixture.parser_batch =
                    Return [Fixture.batch_statement]) by reflexivity;
        congruence).
  rewrite Hs. reflexivity.
Defined.

(** ** Balances *)

Section Balances.
Variable self : Camt053Parser.

Let ns := namespaces self.

Lemma read_balance_stores (result : dict) (b : Element) :
  read_balance self result b =
  if bool_decide (balance_type self b = Some "OPBD") then
    <["OpeningBalanceDate" := stored_date self b]>
      (<["OpeningBalance" := stored_amount self b]> result)
  else if bool_decide (balance_type self b = Some "CLBD") then
    <["ClosingBalanceDate" := stored_date self b]>
      (<["ClosingBalance" := stored_amount self b]> result)
  else result.
Proof. reflexivity. Qed.

Lemma read_balance_opening (result : dict) (b : Element) :
  balance_type self b = Some "OPBD" →
  read_balance self result b !! "OpeningBalance" = Some (stored_amount self b) ∧
  read_balance self result b !! "OpeningBalanceDate" = Some (stored_date self b).
Proof.
  intros Hb. rewrite read_balance_stores, Hb. simpl.
  by rewrite lookup_insert_eq, lookup_insert_ne, lookup_insert_eq by discriminate.
Qed.

Lemma read_balance_closing (result : dict) (b : Element) :
  balance_type self b = Some "CLBD" →
  read_balance self result b !! "ClosingBalance" = Some (stored_amount self b) ∧
  read_balance self result b !! "ClosingBalanceDate" = Some (stored_date self b).
Proof.
  intros Hb. rewrite read_balance_stores, Hb. simpl.
  by rewrite lookup_insert_eq, lookup_insert_ne, lookup_insert_eq by discriminate.
Qed.

Lemma read_balance_not_opening (result : dict) (b : Element) (k : string) :
  balance_type self b ≠ Some "OPBD" →
  k = "OpeningBalance" ∨ k = "OpeningBalanceDate" →
  read_balance self result b !! k = result !! k.
Proof.
  intros Hb Hk. rewrite read_balance_stores.
  rewrite bool_decide_eq_false_2 by done.
  case_bool_decide; [|reflexivity].
  destruct Hk as [-> | ->]; by rewrite !lookup_insert_ne by discriminate.
Qed.

Lemma read_balance_not_closing (result : dict) (b : Element) (k : string) :
  balance_type self b ≠ Some "CLBD" →
  k = "ClosingBalance" ∨ k = "ClosingBalanceDate" →
  read_balance self result b !! k = result !! k.
Proof.
  intros Hb Hk. rewrite read_balance_stores.
  case_bool_decide; [|by rewrite bool_decide_eq_false_2 by done].
  destruct Hk as [-> | ->]; by rewrite !lookup_insert_ne by discriminate.
Qed.

Lemma read_balance_account (result : dict) (b : Element) (k : string) :
  k = "IBAN" ∨ k = "Currency" →
  read_balance self result b !! k = result !! k.
Proof.
  intros Hk. rewrite read_balance_stores.
  repeat case_bool_decide; try reflexivity;
    destruct Hk as [-> | ->]; by rewrite !lookup_insert_ne by discriminate.
Qed.

Lemma read_balance_keys (result : dict) (b : Element) :
  (∀ k, is_Some (result !! k) ↔ k ∈ summary_keys) →
  ∀ k, is_Some (read_balance self result b !! k) ↔ k ∈ summary_keys.
Proof.
  intros Hkeys k. rewrite read_balance_stores.
  repeat case_bool_decide; [| |apply Hkeys];
    rewrite !lookup_insert_is_Some', Hkeys; (split; [|by auto]);
    (intros [<-|[<-|Hold]]; [| |exact Hold]); by apply (bool_decide_unpack _).
Qed.

Lemma fold_read_balance (P : dict → Prop) (bals : list Element) (result : dict) :
  (∀ r b, P r → P (read_balance self r b)) →
  P result → P (fold_left (read_balance self) bals result).
Proof.
  intros Hstep. revert result.
  induction bals as [|b bals IH]; intros result Hr; [exact Hr|].
  simpl. apply IH. by apply Hstep.
Qed.

Lemma fold_read_balance_skip (bals : list Element) (result : dict)
    (code k : string) :
  (code = "OPBD" ∧ (k = "OpeningBalance" ∨ k = "OpeningBalanceDate")) ∨
  (code = "CLBD" ∧ (k = "ClosingBalance" ∨ k = "ClosingBalanceDate")) →
  Forall (λ b, balance_type self b ≠ Some code) bals →
  fold_left (read_balance self) bals result !! k = result !! k.
Proof.
  intros Hk Hbals. revert result.
  induction Hbals as [|b bals Hb _ IH]; intros result; [reflexivity|].
  simpl. rewrite IH.
  destruct Hk as [[-> Hk]|[-> Hk]];
    [by apply read_balance_not_opening | by apply read_balance_not_closing].
Qed.

End Balances.

Lemma summary_initial (self : Camt053Parser) (stmt : Element) :
  statement_summary self stmt =
  fold_left (read_balance self)
    (findall (namespaces self) ".//Bal" stmt)
    (dict_of [
       ("IBAN", text_or_None (find (namespaces self) ".//Acct//Id//IBAN" stmt));
       ("Currency", text_or_None (find (namespaces self) ".//Acct//Ccy" stmt));
       ("OpeningBalance", None);
       ("ClosingBalance", None);
       ("OpeningBalanceDate", None);
       ("ClosingBalanceDate", None)]).
Proof. reflexivity. Qed.

Lemma last_item_is_Some (items : list (string * option string)) (k : string) :
  is_Some (last_item k items) ↔ k ∈ map fst items.
Proof.
  unfold last_item.
  assert (H : ∀ found : option (option string),
            is_Some (fold_left (λ found kv,
                                  if String.eqb kv.1 k then Some kv.2 else found)
                               items found) ↔
            is_Some found ∨ k ∈ map fst items).
  { induction items as [|[k' v] items IH]; intros found.
    - simpl. split; [by left | intros [?|?%elem_of_nil]; done].
    - cbn [fold_left map fst snd]. rewrite IH, elem_of_cons.
      destruct (String.eqb_spec k' k) as [->|Hne].
      + split; [by auto | intros _; left; by eexists].
      + split; [by intros [?|?]; auto | intros [?|[?|?]]; auto; congruence]. }
  rewrite H. split; [by intros [[? [=]]|?] | by right].
Qed.

Lemma summary_keys_exact (self : Camt053Parser) (stmt : Element) (k : string) :
  is_Some (statement_summary self stmt !! k) ↔ k ∈ summary_keys.
Proof.
  revert k. rewrite summary_initial.
  apply (fold_read_balance self
           (λ r : dict, ∀ k, is_Some (r !! k) ↔ k ∈ summary_keys)).
  - intros r b Hr. by apply read_balance_keys.
  - intros k. rewrite dict_of_lookup. apply last_item_is_Some.
Qed.

(** X6: [get_statement_info] fails only for want of a container, with the
    [Camt053ParseError] of the locator; missing account, amount, indicator or
    date nodes never make it fail. When it returns, there is one summary per
    container and at least one, and every summary has exactly the six keys
    IBAN, Currency, OpeningBalance, ClosingBalance, OpeningBalanceDate and
    ClosingBalanceDate, whatever the balances are. *)
Theorem statement_info_outcome (self : Camt053Parser) :
  let ns := namespaces self in
  (get_statement_info self = Raise no_container ↔
   findall ns ".//Stmt" (tree self) = [] ∧
   findall ns ".//Rpt" (tree self) = []) ∧
  (∀ e, get_statement_info self = Raise e → e = no_container) ∧
  (∀ summaries,
     get_statement_info self = Return summaries →
     summaries ≠ [] ∧
     (∃ stmts, _find_statements_or_reports self = Return stmts ∧
               summaries = map (statement_summary self) stmts) ∧
     ∀ d k, d ∈ summaries → (is_Some (d !! k) ↔ k ∈ summary_keys)).
Proof.
  intros ns. rewrite get_statement_info_closed.
  unfold _find_statements_or_reports. fold ns.
  destruct (findall ns ".//Stmt" (tree self)) as [|s ss] eqn:HS;
    [destruct (findall ns ".//Rpt" (tree self)) as [|s ss] eqn:HR|];
    simpl.
  - split; [done|]. split; [by intros e [= <-]|]. discriminate.
  - split; [split; [discriminate | by intros [_ ?]]|].
    split; [discriminate|].
    intros summaries [= <-]. split; [discriminate|].
    split; [by eexists|].
    intros d k Hd.
    change (d ∈ map (statement_summary self) (s :: ss)) in Hd.
    apply list_elem_of_fmap in Hd as (stmt & -> & _).
    apply summary_keys_exact.
  - split; [split; [discriminate | by intros [? _]]|].
    split; [discriminate|].
    intros summaries [= <-]. split; [discriminate|].
    split; [by eexists|].
    intros d k Hd.
    change (d ∈ map (statement_summary self) (s :: ss)) in Hd.
    apply list_elem_of_fmap in Hd as (stmt & -> & _).
    apply summary_keys_exact.
Qed.

Lemma statement_info_outcome_witness :
  get_statement_info Fixture.parser_rpt =
    Return [statement_summary Fixture.parser_rpt Fixture.report] ∧
  is_Some (statement_summary Fixture.parser_rpt Fixture.report !! "Currency") ∧
  get_statement_info Sample.parser_no_container = Raise no_container.
Proof.
  assert (H : get_statement_info Fixture.parser_rpt =
              Return [statement_summary Fixture.parser_rpt Fixture.report])
    by reflexivity.
  split; [exact H|]. split.
  - apply (proj2 (proj2 (proj2 (statement_info_outcome Fixture.parser_rpt)) _ H)).
    + apply list_elem_of_singleton. reflexivity.
    + by apply (bool_decide_unpack _).
  - apply (proj1 (statement_info_outcome Sample.parser_no_container)).
    split; reflexivity.
Defined.

Lemma summary_account (self : Camt053Parser) (stmt : Element) :
  statement_summary self stmt !! "IBAN" =
    Some (text_or_None (find (namespaces self) ".//Acct//Id//IBAN" stmt)) ∧
  statement_summary self stmt !! "Currency" =
    Some (text_or_None (find (namespaces self) ".//Acct//Ccy" stmt)).
Proof.
  rewrite summary_initial. split.
  - apply (fold_read_balance self (λ r : dict, r !! "IBAN" = _)).
    + intros r b Hr. rewrite read_balance_account; [exact Hr | by left].
    + by dict_lookup.
  - apply (fold_read_balance self (λ r : dict, r !! "Currency" = _)).
    + intros r b Hr. rewrite read_balance_account; [exact Hr | by right].
    + by dict_lookup.
Qed.

(** The last balance node of a type decides the two keys of that type. *)
Lemma summary_last_balance (self : Camt053Parser) (stmt b : Element)
    (before after : list Element) (code amount_key date_key : string) :
  findall (namespaces self) ".//Bal" stmt = before ++ b :: after →
  balance_type self b = Some code →
  Forall (λ b', balance_type self b' ≠ Some code) after →
  (code = "OPBD" ∧ amount_key = "OpeningBalance" ∧
   date_key = "OpeningBalanceDate") ∨
  (code = "CLBD" ∧ amount_key = "ClosingBalance" ∧
   date_key = "ClosingBalanceDate") →
  statement_summary self stmt !! amount_key = Some (stored_amount self b) ∧
  statement_summary self stmt !! date_key = Some (stored_date self b).
Proof.
  intros Hbal Hb Hafter Hkeys. rewrite summary_initial, Hbal.
  rewrite fold_left_app. cbn [fold_left].
  destruct Hkeys as [(-> & -> & ->)|(-> & -> & ->)].
  - rewrite !(fold_read_balance_skip self after _ "OPBD") by auto.
    by apply read_balance_opening.
  - rewrite !(fold_read_balance_skip self after _ "CLBD") by auto.
    by apply read_balance_closing.
Qed.

(** X7: in a statement summary, IBAN and Currency are the texts of the
    account nodes of the container, whatever its balances (Currency is not
    the currency of a balance amount); and when the container has no balance
    node of type OPBD, OpeningBalance and OpeningBalanceDate are bound to
    [None], and likewise for CLBD and the closing keys: balance nodes of any
    other type leave no trace. *)
Theorem summary_without_balance (self : Camt053Parser) (stmt : Element) :
  let ns := namespaces self in
  let summary := statement_summary self stmt in
  summary !! "IBAN" = Some (text_or_None (find ns ".//Acct//Id//IBAN" stmt)) ∧
  summary !! "Currency" = Some (text_or_None (find ns ".//Acct//Ccy" stmt)) ∧
  (Forall (λ b, balance_type self b ≠ Some "OPBD") (findall ns ".//Bal" stmt) →
   summary !! "OpeningBalance" = Some None ∧
   summary !! "OpeningBalanceDate" = Some None) ∧
  (Forall (λ b, balance_type self b ≠ Some "CLBD") (findall ns ".//Bal" stmt) →
   summary !! "ClosingBalance" = Some None ∧
   summary !! "ClosingBalanceDate" = Some None).
Proof.
  intros ns summary. subst summary.
  destruct (summary_account self stmt) as [Hiban Hccy].
  split; [exact Hiban|]. split; [exact Hccy|].
  rewrite summary_initial. fold ns.
  split; intros Hnone.
  - rewrite !(fold_read_balance_skip self _ _ "OPBD") by auto.
    split; by dict_lookup.
  - rewrite !(fold_read_balance_skip self _ _ "CLBD") by auto.
    split; by dict_lookup.
Qed.

Lemma summary_without_balance_witness :
  statement_summary Sample.parser_stmt Sample.statement !! "OpeningBalance" =
    Some None ∧
  statement_summary Sample.parser_stmt Sample.statement !! "IBAN" =
    Some (Some "GB33BUKB20201555555555").
Proof.
  pose proof (summary_without_balance Sample.parser_stmt Sample.statement) as H.
  cbv zeta in H. destruct H as (Hiban & _ & Hop & _). split.
  - apply Hop. constructor.
  - rewrite Hiban. reflexivity.
Defined.

(** X8: the last balance node of a type wins. When a balance node of type
    OPBD (or CLBD) is followed, in the container, by no other node of that
    type, the opening (or closing) balance and date of the summary are what
    this node stores, whatever the earlier nodes of that type and the nodes
    of other types hold. *)
Theorem last_balance_wins (self : Camt053Parser) (stmt b : Element)
    (before after : list Element) (code amount_key date_key : string) :
  findall (namespaces self) ".//Bal" stmt = before ++ b :: after →
  balance_type self b = Some code →
  Forall (λ b', balance_type self b' ≠ Some code) after →
  (code = "OPBD" ∧ amount_key = "OpeningBalance" ∧
   date_key = "OpeningBalanceDate") ∨
  (code = "CLBD" ∧ amount_key = "ClosingBalance" ∧
   date_key = "ClosingBalanceDate") →
  (∀ result,
     read_balance self result b !! amount_key =
       statement_summary self stmt !! amount_key ∧
     read_balance self result b !! date_key =
       statement_summary self stmt !! date_key) ∧
  statement_summary self stmt !! amount_key = Some (stored_amount self b) ∧
  statement_summary self stmt !! date_key = Some (stored_date self b).
Proof.
  intros Hbal Hb Hafter Hkeys.
  destruct (summary_last_balance self stmt b before after code amount_key
              date_key Hbal Hb Hafter Hkeys) as [Ha Hd].
  split; [|by split].
  intros result. rewrite Ha, Hd.
  destruct Hkeys as [(-> & -> & ->)|(-> & -> & ->)].
  - by apply read_balance_opening.
  - by apply read_balance_closing.
Qed.

Lemma last_balance_wins_witness :
  statement_summary Fixture.parser_rpt Fixture.report !! "OpeningBalance" =
    Some (Some "1200.50") ∧
  statement_summary Fixture.parser_rpt Fixture.report !! "OpeningBalanceDate" =
    Some (Some "2025-07-31").
Proof.
  destruct (last_balance_wins Fixture.parser_rpt Fixture.report
              Fixture.opening_last
              [Fixture.opening_first; Fixture.closing; Fixture.interim] []
              "OPBD" "OpeningBalance" "OpeningBalanceDate")
    as (_ & Ha & Hd).
  - reflexivity.
  - reflexivity.
  - constructor.
  - left. by repeat split.
  - rewrite Ha, Hd. split; reflexivity.
Defined.

(** X9: what the winning balance node gives. If its indicator is not DBIT
    (CRDT, anything else, or no indicator), the balance is its amount text
    unchanged, and [None] if it has no amount node. Its date is the text of
    its date-time node when it has one, even if that text is [None], and
    only otherwise the text of its date node. *)
Theorem balance_values (self : Camt053Parser) (stmt b : Element)
    (before after : list Element) (code amount_key date_key : string) :
  let ns := namespaces self in
  findall ns ".//Bal" stmt = before ++ b :: after →
  balance_type self b = Some code →
  Forall (λ b', balance_type self b' ≠ Some code) after →
  (code = "OPBD" ∧ amount_key = "OpeningBalance" ∧
   date_key = "OpeningBalanceDate") ∨
  (code = "CLBD" ∧ amount_key = "ClosingBalance" ∧
   date_key = "ClosingBalanceDate") →
  (text_or_None (find ns ".//CdtDbtInd" b) ≠ Some "DBIT" →
   statement_summary self stmt !! amount_key =
     Some (text_or_None (find ns ".//Amt" b))) ∧
  (find ns ".//Amt" b = None →
   statement_summary self stmt !! amount_key = Some None) ∧
  (∀ date_time_elem,
     find ns ".//Dt//DtTm" b = Some date_time_elem →
     statement_summary self stmt !! date_key = Some (text date_time_elem)) ∧
  (find ns ".//Dt//DtTm" b = None →
   statement_summary self stmt !! date_key =
     Some (text_or_None (find ns ".//Dt//Dt" b))).
Proof.
  intros ns Hbal Hb Hafter Hkeys.
  destruct (summary_last_balance self stmt b before after code amount_key
              date_key Hbal Hb Hafter Hkeys) as [-> ->].
  unfold stored_amount, stored_date. fold ns.
  repeat split.
  - intros Hind. rewrite bool_decide_eq_false_2 by done.
    by rewrite andb_false_r.
  - by intros ->.
  - by intros dt ->.
  - by intros ->.
Qed.

Lemma balance_values_witness :
  statement_summary Fixture.parser_rpt Fixture.report !! "ClosingBalanceDate" =
    Some (Some "2025-08-31T23:59:59") ∧
  statement_summary Fixture.parser_rpt Fixture.report !! "OpeningBalance" =
    Some (Some "1200.50").
Proof.
  split.
  - pose proof (balance_values Fixture.parser_rpt Fixture.report
                  Fixture.closing [Fixture.opening_first]
                  [Fixture.interim; Fixture.opening_last]
                  "CLBD" "ClosingBalance" "ClosingBalanceDate") as H.
    cbv zeta in H.
    destruct H as (_ & _ & Hdt & _);
      [reflexivity | reflexivity | repeat constructor; discriminate
      | right; by repeat split |].
    apply (Hdt (Sample.leaf "DtTm" "2025-08-31T23:59:59")). reflexivity.
  - pose proof (balance_values Fixture.parser_rpt Fixture.report
                  Fixture.opening_last
                  [Fixture.opening_first; Fixture.closing; Fixture.interim] []
                  "OPBD" "OpeningBalance" "OpeningBalanceDate") as H.
    cbv zeta in H.
    destruct H as (Hcr & _);
      [reflexivity | reflexivity | constructor | left; by repeat split |].
    rewrite Hcr; [reflexivity | discriminate].
Defined.

(** ** Transactions and summaries of one document *)

Lemma record_AccountIBAN (self : Camt053Parser) (entry statement : Element)
    (c d : dict) :
  _extract_common_entry_data self entry statement = Return c →
  d ∈ entry_records self c entry →
  d !! "AccountIBAN" = statement_summary self statement !! "IBAN".
Proof.
  intros Hc Hd.
  rewrite (proj1 (summary_account self statement)).
  apply common_entry_data_inv in Hc
    as (ref & amt & ind & booked & valued & _ & _ & _ & _ & _ & ->).
  assert (Hcommon : common_record self entry statement ref amt ind booked
                      valued !! "AccountIBAN" =
                    Some (text_or_None
                            (find (namespaces self) ".//Acct//Id//IBAN"
                                  statement)))
    by (unfold common_record; by dict_lookup).
  apply entry_records_elem in Hd as [->|[tx_detail ->]]; [exact Hcommon|].
  rewrite dict_merge_lookup, details_common_key;
    [exact Hcommon | by apply (bool_decide_unpack _) | discriminate].
Qed.

Lemma entries_of_elem (self : Camt053Parser) (stmts : list Element)
    (p : Element * Element) :
  p ∈ entries_of self stmts ↔
  p.2 ∈ stmts ∧ p.1 ∈ findall (namespaces self) ".//Ntry" p.2.
Proof.
  unfold entries_of. rewrite elem_of_concat. split.
  - intros (ps & Hp & Hps).
    apply list_elem_of_fmap in Hps as (statement & -> & Hstatement).
    apply list_elem_of_fmap in Hp as (entry & -> & Hentry). by split.
  - destruct p as [entry statement]. simpl. intros [Hstatement Hentry].
    exists (map (λ entry, (entry, statement))
                (findall (namespaces self) ".//Ntry" statement)).
    split.
    + by apply (list_elem_of_fmap_2 (λ entry, (entry, statement))).
    + by apply (list_elem_of_fmap_2
                  (λ stmt, map (λ entry, (entry, stmt))
                               (findall (namespaces self) ".//Ntry" stmt))).
Qed.

(** X10: the two operations agree on the account, entry by entry. When both
    return, the summaries are those of the containers, the transactions are
    the records of the entries of the containers, and all the records of an
    entry carry as [AccountIBAN] the [IBAN] of the summary of the container
    that holds this entry. *)
Theorem account_iban_agrees (self : Camt053Parser)
    (transactions summaries : list dict) :
  let ns := namespaces self in
  get_transactions self = Return transactions →
  get_statement_info self = Return summaries →
  ∃ stmts rss,
    _find_statements_or_reports self = Return stmts ∧
    summaries = map (statement_summary self) stmts ∧
    transactions = concat rss ∧
    (∀ p, p ∈ entries_of self stmts ↔
          p.2 ∈ stmts ∧ p.1 ∈ findall ns ".//Ntry" p.2) ∧
    Forall2 (λ (p : Element * Element) rs,
               (∃ c, _extract_common_entry_data self p.1 p.2 = Return c ∧
                     rs = entry_records self c p.1) ∧
               ∀ d, d ∈ rs →
                    d !! "AccountIBAN" = statement_summary self p.2 !! "IBAN")
            (entries_of self stmts) rss ∧
    ∀ d, d ∈ transactions →
      ∃ statement entry c,
        statement ∈ stmts ∧
        entry ∈ findall ns ".//Ntry" statement ∧
        _extract_common_entry_data self entry statement = Return c ∧
        d ∈ entry_records self c entry ∧
        statement_summary self statement ∈ summaries ∧
        d !! "AccountIBAN" = statement_summary self statement !! "IBAN".
Proof.
  intros ns Htx Hinfo.
  apply get_transactions_Return in Htx as (stmts & rss & Hstmts & Hrss & ->).
  rewrite get_statement_info_closed, Hstmts in Hinfo. injection Hinfo as <-.
  exists stmts, rss.
  split; [exact Hstmts|]. split; [reflexivity|]. split; [reflexivity|].
  split; [intros p; apply entries_of_elem|]. split.
  - eapply Forall2_impl; [exact Hrss|].
    intros [entry statement] rs (c & Hc & ->). cbn [fst snd] in *.
    split; [by exists c|]. intros d Hd.
    by apply (record_AccountIBAN self entry statement c d).
  - intros d Hd.
    apply elem_of_concat in Hd as (rs & Hd & Hrs).
    apply list_elem_of_lookup in Hrs as [i Hi].
    destruct (Forall2_lookup_r _ _ _ _ _ Hrss Hi)
      as ([entry statement] & Hp & c & Hc & ->). cbn [fst snd] in *.
    apply list_elem_of_lookup_2, entries_of_elem in Hp as [Hstatement Hentry].
    cbn [fst snd] in *.
    exists statement, entry, c.
    split; [exact Hstatement|]. split; [exact Hentry|].
    split; [exact Hc|]. split; [exact Hd|].
    split; [by apply (list_elem_of_fmap_2 (statement_summary self))|].
    by apply (record_AccountIBAN self entry statement c d).
Qed.

Lemma account_iban_agrees_witness :
  get_transactions Fixture.parser_two_accounts =
    Return (entry_records Fixture.parser_two_accounts Sample.common Sample.entry
            ++ entry_records Fixture.parser_two_accounts
                 (common_record Fixture.parser_two_accounts Fixture.entry_b
                    Fixture.statement_b
                    (Sample.leaf "AcctSvcrRef" "789") (Sample.amt "500.00")
                    (Sample.leaf "CdtDbtInd" "CRDT")
                    (Sample.leaf "Dt" "2020-06-23")
                    (Sample.leaf "Dt" "2020-06-23"))
                 Fixture.entry_b) ∧
  get_statement_info Fixture.parser_two_accounts =
    Return [statement_summary Fixture.parser_two_accounts Sample.statement;
            statement_summary Fixture.parser_two_accounts Fixture.statement_b] ∧
  ∃ rss : list (list dict),
    Forall2 (λ (p : Element * Element) rs,
               ∀ d : dict, d ∈ rs →
                    d !! "AccountIBAN" =
                    statement_summary Fixture.parser_two_accounts p.2 !! "IBAN")
            [(Sample.entry, Sample.statement);
             (Fixture.entry_b, Fixture.statement_b)] rss.
Proof.
  assert (Htx : get_transactions Fixture.parser_two_accounts =
    Return (entry_records Fixture.parser_two_accounts Sample.common Sample.entry
            ++ entry_records Fixture.parser_two_accounts
                 (common_record Fixture.parser_two_accounts Fixture.entry_b
                    Fixture.statement_b
                    (Sample.leaf "AcctSvcrRef" "789") (Sample.amt "500.00")
                    (Sample.leaf "CdtDbtInd" "CRDT")
                    (Sample.leaf "Dt" "2020-06-23")
                    (Sample.leaf "Dt" "2020-06-23"))
                 Fixture.entry_b)) by reflexivity.
  assert (Hinfo : get_statement_info Fixture.parser_two_accounts =
    Return [statement_summary Fixture.parser_two_accounts Sample.statement;
            statement_summary Fixture.parser_two_accounts Fixture.statement_b])
    by reflexivity.
  split; [exact Htx|]. split; [exact Hinfo|].
  pose proof (account_iban_agrees _ _ _ Htx Hinfo) as H. cbv zeta in H.
  destruct H as (stmts & rss & Hstmts & _ & _ & _ & Hrss & _).
  assert (Hs : stmts = [Sample.statement; Fixture.statement_b])
    by (assert (H : _find_statements_or_reports Fixture.parser_two_accounts =
                    Return [Sample.statement; Fixture.statement_b])
          by reflexivity;
        congruence).
  rewrite Hs in Hrss.
  change (entries_of Fixture.parser_two_accounts
            [Sample.statement; Fixture.statement_b])
    with [(Sample.entry, Sample.statement);
          (Fixture.entry_b, Fixture.statement_b)] in Hrss.
  exists rss. eapply Forall2_impl; [exact Hrss|].
  intros p rs [_ Hd]. exact Hd.
Defined.

(** The two records of this document carry the two different IBANs of its
    two statements, in the order of the statements. *)
Example two_accounts_two_ibans :
  (transactions ← get_transactions Fixture.parser_two_accounts;
   mret (map (λ d : dict, d !! "AccountIBAN") transactions)) =
    Return [Some (Some "GB33BUKB20201555555555");
            Some (Some "DE02120300000000202051")] ∧
  (summaries ← get_statement_info Fixture.parser_two_accounts;
   mret (map (λ d : dict, d !! "IBAN") summaries)) =
    Return [Some (Some "GB33BUKB20201555555555");
            Some (Some "DE02120300000000202051")].
Proof. split; reflexivity. Qed.

(** ** Remittance without a structured block *)

(** X11: when a transaction-detail has no structured remittance block,
    [RemittanceInformation] is the text of its first unstructured line, not
    trimmed, the key [AdditionalRemittanceInformation] is absent, and with a
    single line of non-empty text [RemittanceInformationFull] is that text
    trimmed: the two fields differ exactly by the white space around it. *)
Theorem unstructured_remittance (self : Camt053Parser) (tx_detail : Element) :
  let ns := namespaces self in
  let d := _extract_transaction_details self tx_detail in
  find ns ".//RmtInf//Strd" tx_detail = None →
  d !! "RemittanceInformation" =
    Some <$> text_or_None (find ns ".//RmtInf//Ustrd" tx_detail) ∧
  d !! "AdditionalRemittanceInformation" = None ∧
  (∀ line t,
     findall ns ".//RmtInf//Ustrd" tx_detail = [line] →
     text line = Some t → t ≠ "" →
     d !! "RemittanceInformation" = Some (Some t) ∧
     d !! "RemittanceInformationFull" = Some (Some (strip t))).
Proof.
  intros ns d Hstrd. subst d.
  assert (Hri : _extract_transaction_details self tx_detail
                  !! "RemittanceInformation" =
                Some <$> text_or_None (find ns ".//RmtInf//Ustrd" tx_detail)).
  { unfold _extract_transaction_details. rewrite lookup_drop_None.
    fold ns. rewrite Hstrd. dict_lookup. by destruct (text_or_None _). }
  split; [exact Hri|]. split.
  - unfold _extract_transaction_details. rewrite lookup_drop_None.
    fold ns. rewrite Hstrd. by dict_lookup.
  - intros line t Hlines Ht Hne. split.
    + rewrite Hri. unfold find. rewrite Hlines. simpl. by rewrite Ht.
    + rewrite details_RemittanceInformationFull. fold ns. rewrite Hlines.
      unfold join_remittance. simpl. rewrite Ht.
      destruct t as [|c t]; [done|]. reflexivity.
Qed.

Lemma unstructured_remittance_witness :
  _extract_transaction_details Fixture.parser_batch Fixture.tx_two
    !! "RemittanceInformation" = Some (Some " invoice 7 ") ∧
  _extract_transaction_details Fixture.parser_batch Fixture.tx_two
    !! "RemittanceInformationFull" = Some (Some "invoice 7").
Proof.
  pose proof (unstructured_remittance Fixture.parser_batch Fixture.tx_two) as H.
  cbv zeta in H. destruct H as (_ & _ & H); [reflexivity|].
  destruct (H (Sample.leaf "Ustrd" " invoice 7 ") " invoice 7 ")
    as [H1 H2]; [reflexivity | reflexivity | discriminate |].
  rewrite H1, H2. split; reflexivity.
Defined.

(** ** The containers *)

Lemma findall_tagged (default_ns : option string) (name : string)
    (e x : Element) :
  x ∈ filter (λ y, selects default_ns (Tag name) y = true) (tail (iter e)) →
  tag x = qualify default_ns name ∧ x ∈ tail (iter e).
Proof.
  intros [Hsel Hin]%list_elem_of_filter. split; [|exact Hin].
  simpl in Hsel. by apply String.eqb_eq.
Qed.

(** X12: the containers the locator returns are never mixed and never
    missing: the list is not empty, its elements are proper descendants of
    the root, and either all of them are statement nodes, or the tree has no
    statement node and all of them are report nodes. A tree with both kinds
    gives its statements only. *)
Theorem containers_of_one_kind (self : Camt053Parser) (stmts : list Element) :
  let ns := namespaces self in
  _find_statements_or_reports self = Return stmts →
  stmts ≠ [] ∧
  Forall (λ s, s ∈ tail (iter (tree self))) stmts ∧
  (Forall (λ s, tag s = qualify ns "Stmt") stmts ∨
   findall ns ".//Stmt" (tree self) = [] ∧
   Forall (λ s, tag s = qualify ns "Rpt") stmts).
Proof.
  intros ns. unfold _find_statements_or_reports. fold ns.
  assert (HS : findall ns ".//Stmt" (tree self) =
               filter (λ y, selects ns (Tag "Stmt") y = true)
                      (tail (iter (tree self))))
    by apply findall_one_step.
  assert (HR : findall ns ".//Rpt" (tree self) =
               filter (λ y, selects ns (Tag "Rpt") y = true)
                      (tail (iter (tree self))))
    by apply findall_one_step.
  destruct (findall ns ".//Stmt" (tree self)) as [|s ss] eqn:Hstmt.
  - destruct (findall ns ".//Rpt" (tree self)) as [|r rs] eqn:Hrpt;
      [discriminate|].
    intros [= <-]. split; [discriminate|].
    split; [|right; split; [reflexivity|]];
      apply Forall_forall; intros x Hx; rewrite HR in Hx;
      by apply findall_tagged in Hx as [? ?].
  - intros [= <-]. split; [discriminate|].
    split; [|left];
      apply Forall_forall; intros x Hx; rewrite HS in Hx;
      by apply findall_tagged in Hx as [? ?].
Qed.

Lemma containers_of_one_kind_witness :
  _find_statements_or_reports Fixture.parser_rpt = Return [Fixture.report] ∧
  findall (namespaces Fixture.parser_rpt) ".//Stmt" (tree Fixture.parser_rpt) = [].
Proof.
  assert (H : _find_statements_or_reports Fixture.parser_rpt =
              Return [Fixture.report]) by reflexivity.
  split; [exact H|].
  pose proof (containers_of_one_kind Fixture.parser_rpt _ H) as Hkind.
  cbv zeta in Hkind. destruct Hkind as (_ & _ & [Hall|[Hnone _]]);
    [|exact Hnone].
  apply Forall_cons in Hall as [Htag _]. discriminate Htag.
Defined.

(** ** The status of an entry *)

(** X13: every record of an entry has the same [Status], read from the first
    status node of the entry: the text of its first coded descendant when it
    has one, its own text otherwise, and [None] when the entry has no status
    node. So a coded status and a plain-text status with the same text give
    the same records. *)
Theorem status_of_records (self : Camt053Parser) (entry statement : Element)
    (common_data d : dict) :
  let ns := namespaces self in
  _extract_common_entry_data self entry statement = Return common_data →
  d ∈ entry_records self common_data entry →
  d !! "Status" = common_data !! "Status" ∧
  (find ns ".//Sts" entry = None → d !! "Status" = Some None) ∧
  (∀ sts code,
     find ns ".//Sts" entry = Some sts → find ns ".//Cd" sts = Some code →
     d !! "Status" = Some (text code)) ∧
  (∀ sts,
     find ns ".//Sts" entry = Some sts → find ns ".//Cd" sts = None →
     d !! "Status" = Some (text sts)).
Proof.
  intros ns Hc Hd.
  assert (Hsame : d !! "Status" = common_data !! "Status").
  { apply entry_records_elem in Hd as [->|[tx_detail ->]]; [reflexivity|].
    rewrite dict_merge_lookup, details_common_key;
      [reflexivity | by apply (bool_decide_unpack _) | discriminate]. }
  split; [exact Hsame|]. rewrite Hsame.
  apply common_entry_data_inv in Hc
    as (ref & amt & ind & booked & valued & _ & _ & _ & _ & _ & ->).
  assert (Hstatus : common_record self entry statement ref amt ind booked valued
                      !! "Status" =
                    Some (_parse_status self (find ns ".//Sts" entry)))
    by (unfold common_record; by dict_lookup).
  rewrite Hstatus. unfold _parse_status. fold ns. repeat split.
  - by intros ->.
  - by intros sts code -> ->.
  - by intros sts -> ->.
Qed.

Lemma status_of_records_witness :
  dict_merge Sample.common
    (_extract_transaction_details Sample.parser_stmt Sample.tx_detail)
    !! "Status" = Some None.
Proof.
  pose proof (status_of_records Sample.parser_stmt Sample.entry Sample.statement
                Sample.common
                (dict_merge Sample.common
                   (_extract_transaction_details Sample.parser_stmt
                      Sample.tx_detail))) as H.
  cbv zeta in H. destruct H as (_ & Hnone & _).
  - reflexivity.
  - apply list_elem_of_singleton. reflexivity.
  - apply Hnone. reflexivity.
Defined.
